(** * UAV strategic deconfliction: the conflict engine

    A shallow embedding of the conflict-detection core of the repository
    (engine/interpolation.py, utils/geo.py, engine/spatial.py,
    engine/temporal.py, engine/conflict_engine.py) and the properties
    its specification states about it.

    Numeric model.  Python floats are modelled as real numbers, and a
    pandas Timestamp as the real number of seconds since the epoch, so a
    Timedelta is a real number of seconds as well: rounding to binary64
    and to whole nanoseconds is outside the model, and so are NaN and
    the infinities.  Exceptions are modelled by an explicit result type.
    A DataFrame with the columns DroneID, Time, Latitude, Longitude and
    Altitude is the list of its rows, in row order. *)

From Stdlib Require Import String.
From Stdlib Require Import Reals List ZArith Lia Lra Bool Sorted.
From Stdlib Require Import Zfloor Machin.
Import ListNotations.

Open Scope R_scope.

(** ** Python values and exceptions *)

Inductive exn : Type :=
| IndexError
| ValueError
| OtherError.

Inductive result (A : Type) : Type :=
| Ok (a : A)
| Raise (e : exn).

Arguments Ok {A} a.
Arguments Raise {A} e.

Definition bind {A B : Type} (c : result A) (k : A -> result B) : result B :=
  match c with
  | Ok a => k a
  | Raise e => Raise e
  end.

Notation "x <- c ;; k" := (bind c (fun x => k))
  (at level 61, c at next level, right associativity).

(** A [for] loop whose body may raise: the accumulator is threaded
    through the elements from left to right. *)
Fixpoint for_each {A S : Type} (body : S -> A -> result S) (l : list A) (s : S)
  : result S :=
  match l with
  | [] => Ok s
  | x :: l' => s' <- body s x ;; for_each body l' s'
  end.

Definition Rle_b (x y : R) : bool := if Rle_dec x y then true else false.

(** [range(n)] *)
Definition py_range (n : Z) : list Z := map Z.of_nat (seq 0 (Z.to_nat n)).

(** ** Data model *)

Definition Timestamp := R.
Definition Timedelta := R.

(** [pd.Timedelta(seconds=s)] and [td.total_seconds()] *)
Definition Timedelta_seconds (s : R) : Timedelta := s.
Definition total_seconds (d : Timedelta) : R := d.

(** One row of the waypoint table; also the dict
    [{DroneID, Time, Latitude, Longitude, Altitude}] of the "other" side
    of a conflict. *)
Record Row : Type := mkRow {
  DroneID : Z;
  Time : Timestamp;
  Latitude : R;
  Longitude : R;
  Altitude : R
}.

Definition DataFrame := list Row.

(** The tuple [(time, lat, lon, alt)]. *)
Definition Waypoint : Type := (Timestamp * R * R * R)%type.

Definition wp_time (w : Waypoint) : Timestamp := let '(t, _, _, _) := w in t.
Definition wp_lat (w : Waypoint) : R := let '(_, lat, _, _) := w in lat.
Definition wp_lon (w : Waypoint) : R := let '(_, _, lon, _) := w in lon.
Definition wp_alt (w : Waypoint) : R := let '(_, _, _, alt) := w in alt.

Definition row_tuple (r : Row) : Waypoint :=
  (Time r, Latitude r, Longitude r, Altitude r).

(** [(primary_waypoint_tuple, other_waypoint_dict, distance_meters)] *)
Definition Conflict : Type := (Waypoint * Row * R)%type.

(** ** engine/interpolation.py *)

(** The sample of the inner loop at fraction [frac] of the segment
    from [w0] to [w1], [dt] being the segment's duration. *)
Definition sample_at (w0 w1 : Row) (dt frac : R) : Waypoint :=
  (Time w0 + Timedelta_seconds (frac * dt),
   Latitude w0 + frac * (Latitude w1 - Latitude w0),
   Longitude w0 + frac * (Longitude w1 - Longitude w0),
   Altitude w0 + frac * (Altitude w1 - Altitude w0)).

(** The body of the loop over [i]: the samples appended for the segment
    between two consecutive waypoints. *)
Definition segment_samples (step_seconds : R) (w0 w1 : Row) : list Waypoint :=
  let dt := total_seconds (Time w1 - Time w0) in
  if Rle_dec dt 0 then []
  else
    let n_steps := Z.max 1 (Zceil (dt / step_seconds)) in
    map (fun k => sample_at w0 w1 dt (IZR k / IZR n_steps)) (py_range n_steps).

(** The loop [for i in range(n_points - 1)] over the pairs
    [(times[i], times[i+1])]. *)
Fixpoint interpolate_segments (step_seconds : R) (rows : list Row)
  : list Waypoint :=
  match rows with
  | w0 :: ((w1 :: _) as rest) =>
      segment_samples step_seconds w0 w1 ++ interpolate_segments step_seconds rest
  | _ => []
  end.

(** [arr[-1]] *)
Fixpoint last_item {A : Type} (l : list A) : result A :=
  match l with
  | [] => Raise IndexError
  | [x] => Ok x
  | _ :: l' => last_item l'
  end.

Definition interpolate_trajectory (df_drone : DataFrame) (step_seconds : R)
  : result (list Waypoint) :=
  if Rle_dec step_seconds 0 then
    Ok (map row_tuple df_drone)
  else
    let n_points := length df_drone in
    if (n_points <? 2)%nat then
      match nth_error df_drone 0 with
      | Some r => Ok [row_tuple r]
      | None => Raise IndexError
      end
    else
      let rows := interpolate_segments step_seconds df_drone in
      final <- last_item df_drone ;;
      Ok (rows ++ [row_tuple final]).

(** ** The [math] module *)

(** [math.radians] *)
Definition math_radians (x : R) : R := x * (PI / 180).

(** [math.sqrt] raises [ValueError] on a negative argument. *)
Definition math_sqrt (x : R) : result R :=
  if Rlt_dec x 0 then Raise ValueError else Ok (sqrt x).

(** [math.asin] raises [ValueError] outside [[-1, 1]]. *)
Definition math_asin (x : R) : result R :=
  if Rlt_dec x (-1) then Raise ValueError
  else if Rlt_dec 1 x then Raise ValueError
  else Ok (asin x).

(** ** numpy, pandas and scipy pieces used by the engine *)

(** [np.mean] of a list of floats *)
Definition np_mean (l : list R) : R := fold_right Rplus 0 l / INR (length l).

(** [df[df["DroneID"] == primary_id]] and [df[df["DroneID"] != primary_id]] *)
Definition rows_of (primary_id : Z) (df : DataFrame) : DataFrame :=
  filter (fun r => (DroneID r =? primary_id)%Z) df.

Definition rows_not_of (primary_id : Z) (df : DataFrame) : DataFrame :=
  filter (fun r => negb (DroneID r =? primary_id)%Z) df.

(** [df.empty], [not lst] *)
Definition is_empty {A : Type} (l : list A) : bool :=
  match l with [] => true | _ => false end.

(** [df.sort_values("Time")], as an insertion sort that keeps rows with
    equal timestamps in their original order. *)
Fixpoint insert_by_time (r : Row) (l : list Row) : list Row :=
  match l with
  | [] => [r]
  | x :: l' => if Rle_dec (Time r) (Time x) then r :: l
               else x :: insert_by_time r l'
  end.

Definition sort_values_Time (df : DataFrame) : DataFrame :=
  fold_right insert_by_time [] df.

(** The keys of [df.groupby("DroneID")]: the distinct ids, ascending. *)
Fixpoint insert_key (k : Z) (ks : list Z) : list Z :=
  match ks with
  | [] => [k]
  | x :: ks' => if (k <? x)%Z then k :: ks
                else if (k =? x)%Z then ks
                else x :: insert_key k ks'
  end.

Definition group_keys (df : DataFrame) : list Z :=
  fold_right insert_key [] (map DroneID df).

(** [df.groupby("DroneID")]: one [(drone_id, group)] per key, the group
    holding that drone's rows in row order. *)
Definition groupby_DroneID (df : DataFrame) : list (Z * DataFrame) :=
  map (fun k => (k, rows_of k df)) (group_keys df).

(** [scipy.spatial.cKDTree] over planar points: the index is modelled by
    the points it was built from. *)
Record cKDTree : Type := mk_cKDTree { tree_data : list (R * R) }.

Definition euclidean (p q : R * R) : R :=
  sqrt ((fst p - fst q) ^ 2 + (snd p - snd q) ^ 2).

Fixpoint ball_indices (pts : list (R * R)) (i : nat) (x : R * R) (r : R)
  : list nat :=
  match pts with
  | [] => []
  | p :: pts' =>
      if Rle_dec (euclidean p x) r then i :: ball_indices pts' (S i) x r
      else ball_indices pts' (S i) x r
  end.

(** [tree.query_ball_point(x, r)]: the indices of the points within
    distance [r] of [x], here in increasing order. *)
Definition query_ball_point (tree : cKDTree) (x : R * R) (r : R) : list nat :=
  ball_indices (tree_data tree) 0 x r.

(** [lst[idx]] *)
Definition list_get {A : Type} (l : list A) (idx : nat) : result A :=
  match nth_error l idx with
  | Some a => Ok a
  | None => Raise IndexError
  end.

(** [query_mission_status]'s dict *)
Record MissionStatus : Type := mkStatus {
  status : string;
  spatial_conflicts : list Conflict;
  temporal_conflicts : list Conflict
}.

Definition meters_per_degree : R := 111320.
Definition TIME_TOLERANCE_SEC : R := 1 / 10.

Section Engine.

(** geopy's [geodesic((lat1, lon1), (lat2, lon2)).meters], an external
    library: [Raise] stands for any exception it throws. *)
Variable geodesic_meters : R -> R -> R -> R -> result R.

(** ** utils/geo.py *)

Definition haversine_meters (lat1 lon1 lat2 lon2 : R) : result R :=
  let radius_earth_m := 6371000 in
  let phi1 := math_radians lat1 in
  let phi2 := math_radians lat2 in
  let delta_phi := math_radians (lat2 - lat1) in
  let delta_lambda := math_radians (lon2 - lon1) in
  let a := sin (delta_phi / 2) ^ 2
           + cos phi1 * cos phi2 * sin (delta_lambda / 2) ^ 2 in
  s <- math_sqrt a ;;
  c <- math_asin s ;;
  Ok (2 * radius_earth_m * c).

(** [try: return geodesic(...).meters  except Exception: return haversine_meters(...)] *)
Definition safe_geodesic_meters (lat1 lon1 lat2 lon2 : R) : result R :=
  match geodesic_meters lat1 lon1 lat2 lon2 with
  | Ok d => Ok d
  | Raise _ => haversine_meters lat1 lon1 lat2 lon2
  end.

(** ** engine/spatial.py *)

Definition project (cos_ref : R) (lat lon : R) : R * R :=
  (lon * meters_per_degree * cos_ref, lat * meters_per_degree).

Definition build_spatial_index (other_waypoints : list Row)
  : option cKDTree * option (list (R * R)) * R :=
  if is_empty other_waypoints then (None, None, 0)
  else
    let lat_ref := np_mean (map Latitude other_waypoints) in
    let cos_ref := cos (math_radians lat_ref) in
    let points :=
      map (fun wp => project cos_ref (Latitude wp) (Longitude wp))
          other_waypoints in
    if (2 * length points =? 0)%nat then (None, Some points, lat_ref)
    else (Some (mk_cKDTree points), Some points, lat_ref).

(** The exact 3D check shared by both finders: horizontal distance from
    [safe_geodesic_meters], combined with the altitude difference. *)
Definition dist_3d_of (plat plon palt : R) (o_wp : Row) : result R :=
  horiz_dist <- safe_geodesic_meters plat plon (Latitude o_wp) (Longitude o_wp) ;;
  let alt_diff := Rabs (palt - Altitude o_wp) in
  math_sqrt (horiz_dist ^ 2 + alt_diff ^ 2).

(** The body of the loop over the candidates of one primary waypoint,
    from the time filter on. *)
Definition spatial_candidate (min_distance_meters : R) (p_wp : Waypoint)
  (violations : list Conflict) (o_wp : Row) : result (list Conflict) :=
  let '(p_time, plat, plon, palt) := p_wp in
  let o_time := Time o_wp in
  let dt := Rabs (total_seconds (p_time - o_time)) in
  if Rlt_dec TIME_TOLERANCE_SEC dt then Ok violations
  else
    dist_3d <- dist_3d_of plat plon palt o_wp ;;
    if Rlt_dec dist_3d min_distance_meters
    then Ok (violations ++ [(p_wp, o_wp, dist_3d)])
    else Ok violations.

Definition spatial_check_with_index (primary_waypoints : list Waypoint)
  (other_waypoints : list Row) (min_distance_meters : R)
  : result (list Conflict) :=
  let '(tree, _, lat_ref) := build_spatial_index other_waypoints in
  match tree with
  | None => Ok []
  | Some tree =>
      let cos_ref := cos (math_radians lat_ref) in
      for_each
        (fun violations p_wp =>
           let '(_, plat, plon, _) := p_wp in
           let candidate_idxs :=
             query_ball_point tree (project cos_ref plat plon)
                              min_distance_meters in
           for_each
             (fun violations idx =>
                o_wp <- list_get other_waypoints idx ;;
                spatial_candidate min_distance_meters p_wp violations o_wp)
             candidate_idxs violations)
        primary_waypoints []
  end.

(** ** engine/temporal.py *)

Definition temporal_candidate (min_distance_meters : R) (prow : Row)
  (violations : list Conflict) (orow : Row) : result (list Conflict) :=
  dist_3d <- dist_3d_of (Latitude prow) (Longitude prow) (Altitude prow) orow ;;
  if Rlt_dec dist_3d min_distance_meters
  then Ok (violations ++ [(row_tuple prow, orow, dist_3d)])
  else Ok violations.

Definition in_window (time_window : Timedelta) (p_time : Timestamp) (orow : Row)
  : bool :=
  Rle_b (p_time - time_window) (Time orow)
  && Rle_b (Time orow) (p_time + time_window).

Definition temporal_check_df (df : DataFrame) (primary_id : Z)
  (time_window_sec min_distance_meters : R) : result (list Conflict) :=
  let primary_path := rows_of primary_id df in
  let other_paths := rows_not_of primary_id df in
  if is_empty primary_path || is_empty other_paths then Ok []
  else
    let time_window := Timedelta_seconds time_window_sec in
    for_each
      (fun violations prow =>
         let window_df := filter (in_window time_window (Time prow)) other_paths in
         if is_empty window_df then Ok violations
         else for_each (temporal_candidate min_distance_meters prow)
                       window_df violations)
      primary_path [].

(** ** engine/conflict_engine.py *)

Definition sample_dict (drone_id : Z) (s : Waypoint) : Row :=
  let '(t, lat, lon, alt) := s in mkRow drone_id t lat lon alt.

Definition row_dict (drone_id : Z) (row : Row) : Row :=
  mkRow drone_id (Time row) (Latitude row) (Longitude row) (Altitude row).

(** The body of the loop over [df.groupby("DroneID")]. *)
Definition collect_group (primary_id : Z) (interp_step_sec : R)
  (other_waypoints : list Row) (g : Z * DataFrame) : result (list Row) :=
  let '(drone_id, group) := g in
  if (drone_id =? primary_id)%Z then Ok other_waypoints
  else
    let group_sorted := sort_values_Time group in
    if Rlt_dec 0 interp_step_sec then
      samples <- interpolate_trajectory group_sorted interp_step_sec ;;
      Ok (other_waypoints ++ map (sample_dict drone_id) samples)
    else
      Ok (other_waypoints ++ map (row_dict drone_id) group_sorted).

Definition check_primary_mission_conflicts (df : DataFrame) (primary_id : Z)
  (min_distance_meters time_window_sec interp_step_sec : R)
  : result (list Conflict * list Conflict) :=
  other_waypoints <-
    for_each (collect_group primary_id interp_step_sec) (groupby_DroneID df) [] ;;
  let primary_df := sort_values_Time (rows_of primary_id df) in
  if is_empty primary_df then Ok ([], [])
  else
    primary_waypoints <-
      (if Rlt_dec 0 interp_step_sec
       then interpolate_trajectory primary_df interp_step_sec
       else Ok (map row_tuple primary_df)) ;;
    spatial <- spatial_check_with_index primary_waypoints other_waypoints
                                        min_distance_meters ;;
    temporal <- temporal_check_df df primary_id time_window_sec
                                  min_distance_meters ;;
    Ok (spatial, temporal).

Definition query_mission_status (df : DataFrame) (primary_id : Z)
  (min_distance_meters time_window_sec interp_step_sec : R)
  : result MissionStatus :=
  r <- check_primary_mission_conflicts df primary_id min_distance_meters
                                       time_window_sec interp_step_sec ;;
  let '(spatial, temporal) := r in
  let st := if is_empty spatial && is_empty temporal
            then "clear"%string else "conflict detected"%string in
  Ok (mkStatus st spatial temporal).

End Engine.

(** ** Example data *)

(** Two waypoints of drone 1 logged with the same timestamp at
    different positions. *)
Definition dup_df : DataFrame :=
  [mkRow 1 0 0 0 0; mkRow 1 0 1 1 1].

(** Two waypoints of drone 1 one second apart. *)
Definition leg_df : DataFrame :=
  [mkRow 1 0 0 0 0; mkRow 1 1 1 1 1].

(** A stand-in for geopy: it rejects a latitude outside [[-90, 90]] of
    the first point, as geopy does, and otherwise measures along the
    meridian. *)
Definition geodesic_meridian (lat1 lon1 lat2 lon2 : R) : result R :=
  if Rlt_dec 90 (Rabs lat1) then Raise ValueError
  else Ok (Rabs (lat2 - lat1) * meters_per_degree).

(** The dataset of the repository's test fixture: the primary drone 1,
    drone 2 flying next to it and drone 3 far away; times in seconds
    after 10:00:00. *)
Definition simple_df : DataFrame :=
  [mkRow 1 0 (3025 / 100) (- (11995 / 100)) 100;
   mkRow 1 30 (30251 / 1000) (- (119951 / 1000)) 120;
   mkRow 2 0 (302501 / 10000) (- (1199501 / 10000)) 100;
   mkRow 2 30 (302511 / 10000) (- (1199511 / 10000)) 120;
   mkRow 3 0 (304 / 10) (- (1202 / 10)) 200].

(** A dataset with drones 2 and 3 only. *)
Definition others_only_df : DataFrame :=
  [mkRow 2 0 30 (-120) 100; mkRow 3 0 31 (-120) 100; mkRow 2 1 30 (-120) 100].

(** ** Values of the total computations

    The horizontal and 3D distances as plain functions, for stating what
    the finders return. *)

Definition horizontal (geodesic_meters : R -> R -> R -> R -> result R)
  (lat1 lon1 lat2 lon2 : R) : R :=
  match safe_geodesic_meters geodesic_meters lat1 lon1 lat2 lon2 with
  | Ok d => d
  | Raise _ => 0
  end.

Definition dist_3d (geodesic_meters : R -> R -> R -> R -> result R)
  (plat plon palt : R) (o_wp : Row) : R :=
  sqrt (horizontal geodesic_meters plat plon (Latitude o_wp) (Longitude o_wp) ^ 2
        + Rabs (palt - Altitude o_wp) ^ 2).

(** What the exact check contributes for one pair: the conflict record
    when the 3D distance is below the threshold, nothing otherwise. *)
Definition verified (geodesic_meters : R -> R -> R -> R -> result R)
  (min_distance_meters : R) (p_wp : Waypoint) (o_wp : Row) : list Conflict :=
  let d := dist_3d geodesic_meters (wp_lat p_wp) (wp_lon p_wp) (wp_alt p_wp) o_wp in
  if Rlt_dec d min_distance_meters then [(p_wp, o_wp, d)] else [].

(** The records of the temporal finder, as a comprehension. *)
Definition temporal_records (geodesic_meters : R -> R -> R -> R -> result R)
  (df : DataFrame) (primary_id : Z) (time_window_sec min_distance_meters : R)
  : list Conflict :=
  flat_map
    (fun prow =>
       flat_map (verified geodesic_meters min_distance_meters (row_tuple prow))
         (filter (in_window (Timedelta_seconds time_window_sec) (Time prow))
                 (rows_not_of primary_id df)))
    (rows_of primary_id df).

(** What one indexed waypoint contributes for one primary waypoint in
    the spatial finder: radius query, then time filter, then exact
    check. *)
Definition spatial_emit (geodesic_meters : R -> R -> R -> R -> result R)
  (cos_ref min_distance_meters : R) (p_wp : Waypoint) (o_wp : Row)
  : list Conflict :=
  if Rle_dec (euclidean (project cos_ref (Latitude o_wp) (Longitude o_wp))
                        (project cos_ref (wp_lat p_wp) (wp_lon p_wp)))
             min_distance_meters
  then
    if Rlt_dec TIME_TOLERANCE_SEC (Rabs (total_seconds (wp_time p_wp - Time o_wp)))
    then []
    else verified geodesic_meters min_distance_meters p_wp o_wp
  else [].

(** The records of the spatial finder, as a comprehension. *)
Definition spatial_records (geodesic_meters : R -> R -> R -> R -> result R)
  (primary_waypoints : list Waypoint) (other_waypoints : list Row)
  (min_distance_meters : R) : list Conflict :=
  let cos_ref := cos (math_radians (np_mean (map Latitude other_waypoints))) in
  flat_map
    (fun p_wp =>
       flat_map (spatial_emit geodesic_meters cos_ref min_distance_meters p_wp)
                other_waypoints)
    primary_waypoints.

(** A relation holding between every two neighbours of a list, as
    between row [i] and row [i+1] of a trajectory. *)
Fixpoint consecutive {A : Type} (P : A -> A -> Prop) (l : list A) : Prop :=
  match l with
  | a :: ((b :: _) as tl) => P a b /\ consecutive P tl
  | _ => True
  end.

(** The quantity [a] of the haversine formula. *)
Definition haversine_a (lat1 lon1 lat2 lon2 : R) : R :=
  sin (math_radians (lat2 - lat1) / 2) ^ 2
  + cos (math_radians lat1) * cos (math_radians lat2)
    * sin (math_radians (lon2 - lon1) / 2) ^ 2.

(** * Properties *)

(** ** Lists, ranges and the result type *)

Lemma py_range_In (n k : Z) : In k (py_range n) <-> (0 <= k < n)%Z.
Proof.
  unfold py_range. rewrite in_map_iff. split.
  - intros [i [<- Hi]]. apply in_seq in Hi. lia.
  - intros Hk. exists (Z.to_nat k). split; [lia|]. apply in_seq. lia.
Qed.

Lemma py_range_head (n : Z) :
  (1 <= n)%Z -> exists tl, py_range n = 0%Z :: tl.
Proof.
  intros Hn. unfold py_range.
  destruct (Z.to_nat n) as [|m] eqn:E; [lia|].
  simpl. eexists. reflexivity.
Qed.

Lemma last_item_app {A : Type} (l : list A) (x : A) :
  last_item (l ++ [x]) = Ok x.
Proof.
  induction l as [|a l IH]; [reflexivity|].
  simpl. destruct (l ++ [x]) eqn:E; [destruct l; discriminate|exact IH].
Qed.

Lemma last_item_map {A B : Type} (f : A -> B) (l : list A) :
  last_item (map f l) = x <- last_item l ;; Ok (f x).
Proof.
  induction l as [|a l IH]; [reflexivity|].
  simpl. destruct l; [reflexivity|exact IH].
Qed.

Lemma last_item_nonempty {A : Type} (l : list A) :
  l <> [] -> exists x, last_item l = Ok x /\ In x l.
Proof.
  induction l as [|a l IH]; [congruence|]. intros _.
  destruct l as [|b l].
  - exists a. split; [reflexivity|now left].
  - destruct IH as [x [Hx Hin]]; [discriminate|].
    exists x. split; [exact Hx|now right].
Qed.

(** ** Interpolation *)

Lemma waypoint_eq (t t' lat lat' lon lon' alt alt' : R) :
  t = t' -> lat = lat' -> lon = lon' -> alt = alt' ->
  (t, lat, lon, alt) = (t', lat', lon', alt').
Proof. intros -> -> -> ->. reflexivity. Qed.

Lemma sample_at_0 (w0 w1 : Row) (dt : R) :
  sample_at w0 w1 dt 0 = row_tuple w0.
Proof.
  unfold sample_at, row_tuple, Timedelta_seconds.
  repeat (f_equal; try ring).
Qed.

Lemma n_steps_pos (x : R) : (1 <= Z.max 1 (Zceil x))%Z.
Proof. lia. Qed.

Lemma segment_samples_head (step : R) (w0 w1 : Row) :
  Time w0 < Time w1 ->
  exists tl, segment_samples step w0 w1 = row_tuple w0 :: tl.
Proof.
  intros Hlt. unfold segment_samples, total_seconds.
  destruct (Rle_dec (Time w1 - Time w0) 0) as [Hle|_]; [lra|].
  destruct (py_range_head _ (n_steps_pos ((Time w1 - Time w0) / step)))
    as [tl ->].
  simpl. eexists. f_equal.
  unfold Rdiv. rewrite Rmult_0_l. apply sample_at_0.
Qed.

Lemma segment_samples_skip (step : R) (w0 w1 : Row) :
  Time w1 <= Time w0 -> segment_samples step w0 w1 = [].
Proof.
  intros Hle. unfold segment_samples, total_seconds.
  destruct (Rle_dec (Time w1 - Time w0) 0) as [_|Hn]; [reflexivity|lra].
Qed.

Lemma interpolate_trajectory_long (df : DataFrame) (step : R) :
  0 < step -> (2 <= length df)%nat ->
  exists final,
    last_item df = Ok final /\
    interpolate_trajectory df step
    = Ok (interpolate_segments step df ++ [row_tuple final]).
Proof.
  intros Hs Hlen. unfold interpolate_trajectory.
  destruct (Rle_dec step 0) as [H0|_]; [lra|].
  destruct (Nat.ltb_spec (length df) 2) as [Hl|_]; [lia|].
  destruct (last_item_nonempty df) as [final [Hf _]].
  { destruct df; [simpl in Hlen; lia|discriminate]. }
  exists final. rewrite Hf. split; reflexivity.
Qed.

Lemma interpolate_trajectory_nonempty (df : DataFrame) (step : R) :
  df <> [] -> exists rows, interpolate_trajectory df step = Ok rows.
Proof.
  intros Hne. unfold interpolate_trajectory.
  destruct (Rle_dec step 0); [eexists; reflexivity|].
  destruct (Nat.ltb_spec (length df) 2) as [Hl|Hl].
  - destruct df as [|r df]; [congruence|]. simpl. eexists; reflexivity.
  - destruct (last_item_nonempty df Hne) as [final [Hf _]].
    rewrite Hf. simpl. eexists; reflexivity.
Qed.

Lemma interpolate_segments_In (step : R) (df : DataFrame) (i : nat)
  (w0 w1 : Row) (s : Waypoint) :
  nth_error df i = Some w0 -> nth_error df (S i) = Some w1 ->
  In s (segment_samples step w0 w1) ->
  In s (interpolate_segments step df).
Proof.
  revert df. induction i as [|i IH]; intros df H0 H1 Hin.
  - destruct df as [|a [|b df]]; try discriminate.
    simpl in H0, H1. injection H0 as <-. injection H1 as <-.
    simpl. apply in_or_app. now left.
  - destruct df as [|a [|b df]]; simpl in H0, H1; try discriminate.
    change (In s (segment_samples step a b
                  ++ interpolate_segments step (b :: df))).
    apply in_or_app. right. apply IH; assumption.
Qed.

Lemma interpolate_dup_df :
  interpolate_trajectory dup_df (1 / 2) = Ok [(0, 1, 1, 1)].
Proof.
  unfold interpolate_trajectory, dup_df.
  destruct (Rle_dec (1 / 2) 0) as [H|_]; [lra|].
  cbn [length Nat.ltb Nat.leb interpolate_segments last_item bind].
  rewrite segment_samples_skip by (simpl; lra).
  reflexivity.
Qed.

(** A leg of one second resampled every half second: the start, the
    midpoint and the final waypoint. *)
Example interpolate_leg_df :
  interpolate_trajectory leg_df (1 / 2)
  = Ok [(0, 0, 0, 0); (1 / 2, 1 / 2, 1 / 2, 1 / 2); (1, 1, 1, 1)].
Proof.
  unfold interpolate_trajectory, leg_df.
  destruct (Rle_dec (1 / 2) 0) as [H|_]; [lra|].
  cbn [length Nat.ltb Nat.leb interpolate_segments last_item bind].
  unfold segment_samples, total_seconds. cbn [Time].
  destruct (Rle_dec (1 - 0) 0) as [H|_]; [lra|].
  replace (Zceil ((1 - 0) / (1 / 2))) with 2%Z
    by (symmetry; apply Zceil_eq; simpl; lra).
  change (py_range (Z.max 1 2)) with [0%Z; 1%Z].
  change (Z.max 1 2) with 2%Z.
  unfold sample_at, Timedelta_seconds, row_tuple.
  cbn [map app Time Latitude Longitude Altitude].
  apply f_equal.
  repeat (apply f_equal2; [apply waypoint_eq; lra|]).
  reflexivity.
Qed.

(** C8.  With [step_seconds <= 0] resampling is the identity: the rows
    come back as tuples, unchanged and in the same order. *)
Theorem resample_nonpositive_step_identity (df : DataFrame) (step : R) :
  step <= 0 -> interpolate_trajectory df step = Ok (map row_tuple df).
Proof.
  intros Hs. unfold interpolate_trajectory.
  destruct (Rle_dec step 0) as [_|Hn]; [reflexivity|contradiction].
Qed.

Lemma resample_nonpositive_step_identity_witness :
  -1 <= 0 /\ interpolate_trajectory leg_df (-1) = Ok (map row_tuple leg_df).
Proof.
  split; [lra|]. apply (resample_nonpositive_step_identity leg_df (-1)). lra.
Defined.

(** C7.  A single-waypoint trajectory is returned unchanged for every
    step, and the empty trajectory is returned unchanged when the step is
    not positive; with a positive step the empty trajectory is not
    returned: reading [times[0]] raises [IndexError]. *)
Theorem resample_short_trajectory :
  (forall (w : Row) (step : R), interpolate_trajectory [w] step = Ok [row_tuple w])
  /\ interpolate_trajectory [] 0 = Ok []
  /\ interpolate_trajectory [] (1 / 2) = Raise IndexError.
Proof.
  split; [|split].
  - intros w step. unfold interpolate_trajectory.
    destruct (Rle_dec step 0); reflexivity.
  - unfold interpolate_trajectory.
    destruct (Rle_dec 0 0) as [_|H]; [reflexivity|lra].
  - unfold interpolate_trajectory.
    destruct (Rle_dec (1 / 2) 0) as [H|_]; [lra|reflexivity].
Qed.

(** C1, as stated, fails: when the first two waypoints carry the same
    timestamp the first segment is skipped, and the output starts at the
    second waypoint. *)
Lemma resample_first_point_counterexample :
  (2 <= length dup_df)%nat /\ 0 < 1 / 2 /\
  exists rows,
    interpolate_trajectory dup_df (1 / 2) = Ok rows /\
    hd_error rows <> hd_error (map row_tuple dup_df).
Proof.
  split; [simpl; lia|]. split; [lra|].
  exists [(0, 1, 1, 1)]. split; [exact interpolate_dup_df|].
  simpl. unfold row_tuple. simpl. intros H.
  injection H as H. lra.
Qed.

(** C1, amended.  For a trajectory with at least 2 waypoints and a
    positive step the output is non-empty and its last element is the
    input's last waypoint exactly; its first element is the input's first
    waypoint exactly when the first two timestamps strictly increase. *)
Theorem resample_endpoints (df : DataFrame) (step : R) :
  (2 <= length df)%nat -> 0 < step ->
  exists rows,
    interpolate_trajectory df step = Ok rows /\
    rows <> [] /\
    last_item rows = last_item (map row_tuple df) /\
    (forall w0 w1 rest, df = w0 :: w1 :: rest -> Time w0 < Time w1 ->
       hd_error rows = Some (row_tuple w0)).
Proof.
  intros Hlen Hs.
  destruct (interpolate_trajectory_long df step Hs Hlen) as [final [Hf Hrows]].
  exists (interpolate_segments step df ++ [row_tuple final]).
  split; [exact Hrows|]. split; [|split].
  - intros E. apply app_eq_nil in E. destruct E as [_ E]. discriminate.
  - rewrite last_item_app, last_item_map, Hf. reflexivity.
  - intros w0 w1 rest -> Hlt.
    destruct (segment_samples_head step w0 w1 Hlt) as [tl Htl].
    change (interpolate_segments step (w0 :: w1 :: rest))
      with (segment_samples step w0 w1 ++ interpolate_segments step (w1 :: rest)).
    rewrite Htl. reflexivity.
Qed.

Lemma resample_endpoints_witness :
  (2 <= length leg_df)%nat /\ 0 < 1 / 2 /\
  exists rows,
    interpolate_trajectory leg_df (1 / 2) = Ok rows /\
    rows <> [] /\
    last_item rows = last_item (map row_tuple leg_df) /\
    (forall w0 w1 rest, leg_df = w0 :: w1 :: rest -> Time w0 < Time w1 ->
       hd_error rows = Some (row_tuple w0)).
Proof.
  assert (H2 : (2 <= length leg_df)%nat) by (simpl; lia).
  assert (Hs : 0 < 1 / 2) by lra.
  split; [exact H2|]. split; [exact Hs|].
  exact (resample_endpoints leg_df (1 / 2) H2 Hs).
Defined.

(** C10.  Every sample emitted for a segment [(w_i, w_{i+1})] with a
    positive time delta is part of the output, has its timestamp in
    [[w_i.time, w_{i+1}.time)], and has each of latitude, longitude and
    altitude a convex combination of the two endpoints' values, hence
    between them. *)
Theorem samples_within_segment (df : DataFrame) (step : R) (i : nat)
  (w0 w1 : Row) (s : Waypoint) :
  0 < step ->
  nth_error df i = Some w0 -> nth_error df (S i) = Some w1 ->
  Time w0 < Time w1 ->
  In s (segment_samples step w0 w1) ->
  (exists rows, interpolate_trajectory df step = Ok rows /\ In s rows) /\
  Time w0 <= wp_time s < Time w1 /\
  exists frac, 0 <= frac < 1 /\
    wp_lat s = (1 - frac) * Latitude w0 + frac * Latitude w1 /\
    wp_lon s = (1 - frac) * Longitude w0 + frac * Longitude w1 /\
    wp_alt s = (1 - frac) * Altitude w0 + frac * Altitude w1 /\
    Rmin (Latitude w0) (Latitude w1) <= wp_lat s <= Rmax (Latitude w0) (Latitude w1) /\
    Rmin (Longitude w0) (Longitude w1) <= wp_lon s <= Rmax (Longitude w0) (Longitude w1) /\
    Rmin (Altitude w0) (Altitude w1) <= wp_alt s <= Rmax (Altitude w0) (Altitude w1).
Proof.
  intros Hs H0 H1 Hlt Hin. split.
  - assert (Hlen : (2 <= length df)%nat).
    { assert (S i < length df)%nat by (apply nth_error_Some; congruence). lia. }
    destruct (interpolate_trajectory_long df step Hs Hlen) as [final [_ Hrows]].
    eexists. split; [exact Hrows|].
    apply in_or_app. left.
    exact (interpolate_segments_In step df i w0 w1 s H0 H1 Hin).
  - unfold segment_samples, total_seconds in Hin.
    destruct (Rle_dec (Time w1 - Time w0) 0) as [Hle|_]; [lra|].
    apply in_map_iff in Hin. destruct Hin as [k [<- Hk]].
    apply py_range_In in Hk.
    set (n := Z.max 1 (Zceil ((Time w1 - Time w0) / step))) in *.
    assert (Hn : 0 < IZR n) by (apply IZR_lt; lia).
    assert (Hk0 : 0 <= IZR k) by (apply IZR_le; lia).
    assert (Hkn : IZR k < IZR n) by (apply IZR_lt; lia).
    set (frac := IZR k / IZR n).
    assert (Hfrac : frac * IZR n = IZR k) by (unfold frac; field; lra).
    assert (Hf0 : 0 <= frac) by nra.
    assert (Hf1 : frac < 1) by nra.
    unfold sample_at, Timedelta_seconds, wp_time, wp_lat, wp_lon, wp_alt.
    cbv beta iota.
    split; [split; nra|].
    exists frac. split; [lra|].
    split; [ring|]. split; [ring|]. split; [ring|].
    unfold Rmin, Rmax.
    repeat split;
      repeat match goal with |- context [Rle_dec ?a ?b] => destruct (Rle_dec a b) end;
      nra.
Qed.

Lemma samples_within_segment_witness :
  0 < 1 / 2 /\ Time (mkRow 1 0 0 0 0) < Time (mkRow 1 1 1 1 1) /\
  Time (mkRow 1 0 0 0 0) <= wp_time (row_tuple (mkRow 1 0 0 0 0))
    < Time (mkRow 1 1 1 1 1).
Proof.
  assert (Hs : 0 < 1 / 2) by lra.
  assert (Hlt : Time (mkRow 1 0 0 0 0) < Time (mkRow 1 1 1 1 1)) by (simpl; lra).
  split; [exact Hs|]. split; [exact Hlt|].
  destruct (segment_samples_head (1 / 2) _ _ Hlt) as [tl Htl].
  apply (samples_within_segment leg_df (1 / 2) 0
           (mkRow 1 0 0 0 0) (mkRow 1 1 1 1 1) (row_tuple (mkRow 1 0 0 0 0))
           Hs eq_refl eq_refl Hlt).
  rewrite Htl. now left.
Defined.

(** ** Geographic distance *)

Lemma asin_nonneg (x : R) : 0 <= x <= 1 -> 0 <= asin x.
Proof.
  intros [H0 H1].
  destruct (Rle_lt_dec 0 (asin x)) as [Hle|Hlt]; [exact Hle|].
  exfalso.
  assert (Hs : sin (asin x) = x) by (apply sin_asin; lra).
  assert (Hb := asin_bound x).
  assert (Hpi := PI_RGT_0).
  assert (Hneg : sin (asin x) < 0) by (apply sin_lt_0_var; lra).
  lra.
Qed.

Lemma sin_half_sqr (x : R) : sin (x / 2) ^ 2 = (1 - cos x) / 2.
Proof.
  assert (H := cos_2a_sin (x / 2)).
  replace (2 * (x / 2)) with x in H by field.
  rewrite H. field.
Qed.

(** The quantity under the square root of the haversine formula lies in
    [[0, 1]], so neither [math.sqrt] nor [math.asin] can fail on it. *)
Lemma haversine_radicand_bounds (phi1 phi2 dlam : R) :
  0 <= sin ((phi2 - phi1) / 2) ^ 2
       + cos phi1 * cos phi2 * sin (dlam / 2) ^ 2 <= 1.
Proof.
  rewrite !sin_half_sqr, cos_minus.
  assert (H1 := sin2_cos2 phi1). assert (H2 := sin2_cos2 phi2).
  unfold Rsqr in H1, H2.
  assert (HL := COS_bound dlam).
  set (s1 := sin phi1) in *. set (c1 := cos phi1) in *.
  set (s2 := sin phi2) in *. set (c2 := cos phi2) in *.
  set (L := cos dlam) in *.
  assert (Ha : 0 <= (s1 - s2) ^ 2) by apply pow2_ge_0.
  assert (Hb : 0 <= (c1 - c2 * L) ^ 2) by apply pow2_ge_0.
  assert (Hc : 0 <= (s1 + s2) ^ 2) by apply pow2_ge_0.
  assert (Hd : 0 <= (c1 + c2 * L) ^ 2) by apply pow2_ge_0.
  assert (He : 0 <= c2 ^ 2 * (1 - L ^ 2)).
  { apply Rmult_le_pos; [apply pow2_ge_0|nra]. }
  split; nra.
Qed.

Section GeoProperties.

Variable geodesic_meters : R -> R -> R -> R -> result R.

Lemma haversine_meters_ok (lat1 lon1 lat2 lon2 : R) :
  exists d, haversine_meters lat1 lon1 lat2 lon2 = Ok d /\ 0 <= d.
Proof.
  unfold haversine_meters.
  replace (math_radians (lat2 - lat1))
    with (math_radians lat2 - math_radians lat1)
    by (unfold math_radians; ring).
  set (a := sin ((math_radians lat2 - math_radians lat1) / 2) ^ 2
            + cos (math_radians lat1) * cos (math_radians lat2)
              * sin (math_radians (lon2 - lon1) / 2) ^ 2).
  assert (Ha : 0 <= a <= 1) by apply haversine_radicand_bounds.
  assert (Hs0 : 0 <= sqrt a) by apply sqrt_pos.
  assert (Hs1 : sqrt a <= 1).
  { rewrite <- sqrt_1. apply sqrt_le_1_alt. lra. }
  unfold math_sqrt. destruct (Rlt_dec a 0) as [Hlt|_]; [lra|].
  cbn [bind]. unfold math_asin.
  destruct (Rlt_dec (sqrt a) (-1)) as [Hlt|_]; [lra|].
  destruct (Rlt_dec 1 (sqrt a)) as [Hlt|_]; [lra|].
  cbn [bind]. eexists. split; [reflexivity|].
  assert (Hasin : 0 <= asin (sqrt a)) by (apply asin_nonneg; lra).
  nra.
Qed.

Lemma safe_geodesic_meters_ok (lat1 lon1 lat2 lon2 : R) :
  safe_geodesic_meters geodesic_meters lat1 lon1 lat2 lon2
  = Ok (horizontal geodesic_meters lat1 lon1 lat2 lon2).
Proof.
  unfold horizontal, safe_geodesic_meters.
  destruct (geodesic_meters lat1 lon1 lat2 lon2) as [d|e]; [reflexivity|].
  destruct (haversine_meters_ok lat1 lon1 lat2 lon2) as [d [-> _]].
  reflexivity.
Qed.

Lemma dist_3d_of_ok (plat plon palt : R) (o_wp : Row) :
  dist_3d_of geodesic_meters plat plon palt o_wp
  = Ok (dist_3d geodesic_meters plat plon palt o_wp).
Proof.
  unfold dist_3d_of, dist_3d. rewrite safe_geodesic_meters_ok. cbn [bind].
  unfold math_sqrt.
  match goal with |- context [Rlt_dec ?x 0] => destruct (Rlt_dec x 0) as [Hlt|_] end;
    [|reflexivity].
  exfalso.
  assert (H1 := pow2_ge_0 (horizontal geodesic_meters plat plon
                             (Latitude o_wp) (Longitude o_wp))).
  assert (H2 := pow2_ge_0 (Rabs (palt - Altitude o_wp))).
  lra.
Qed.

Lemma dist_3d_nonneg (plat plon palt : R) (o_wp : Row) :
  0 <= dist_3d geodesic_meters plat plon palt o_wp.
Proof. apply sqrt_pos. Qed.

(** C2.  [safe_geodesic_meters] never raises: when the geodesic
    computation fails, whatever the failure, it returns the haversine
    distance, and its result is a non-negative number of meters, geopy's
    own results being non-negative. *)
Theorem safe_geodesic_meters_total (lat1 lon1 lat2 lon2 : R) :
  (forall d, geodesic_meters lat1 lon1 lat2 lon2 = Ok d -> 0 <= d) ->
  exists d,
    safe_geodesic_meters geodesic_meters lat1 lon1 lat2 lon2 = Ok d /\
    0 <= d /\
    (forall e, geodesic_meters lat1 lon1 lat2 lon2 = Raise e ->
       haversine_meters lat1 lon1 lat2 lon2 = Ok d).
Proof.
  intros Hgeo. unfold safe_geodesic_meters.
  destruct (geodesic_meters lat1 lon1 lat2 lon2) as [d|e] eqn:E.
  - exists d. split; [reflexivity|]. split; [now apply Hgeo|].
    intros e He. discriminate.
  - destruct (haversine_meters_ok lat1 lon1 lat2 lon2) as [d [Hd Hpos]].
    exists d. split; [exact Hd|]. split; [exact Hpos|].
    intros _ _. exact Hd.
Qed.

End GeoProperties.

Lemma geodesic_meridian_nonneg (lat1 lon1 lat2 lon2 d : R) :
  geodesic_meridian lat1 lon1 lat2 lon2 = Ok d -> 0 <= d.
Proof.
  unfold geodesic_meridian, meters_per_degree.
  destruct (Rlt_dec 90 (Rabs lat1)); [discriminate|].
  intros H. injection H as <-.
  assert (H := Rabs_pos (lat2 - lat1)). nra.
Qed.

Lemma safe_geodesic_meters_total_witness :
  exists d,
    safe_geodesic_meters geodesic_meridian 30 (-120) 31 (-119) = Ok d /\
    0 <= d /\
    (forall e, geodesic_meridian 30 (-120) 31 (-119) = Raise e ->
       haversine_meters 30 (-120) 31 (-119) = Ok d).
Proof.
  apply (safe_geodesic_meters_total geodesic_meridian 30 (-120) 31 (-119)).
  intros d H. exact (geodesic_meridian_nonneg _ _ _ _ d H).
Defined.

(** ** Loops that only append *)

Lemma for_each_app {A B : Type} (body : list B -> A -> result (list B))
  (f : A -> list B) (l : list A) :
  (forall v x, In x l -> body v x = Ok (v ++ f x)) ->
  forall v, for_each body l v = Ok (v ++ flat_map f l).
Proof.
  induction l as [|x l IH]; intros Hbody v.
  - simpl. now rewrite app_nil_r.
  - simpl. rewrite (Hbody v x) by now left. cbn [bind].
    rewrite IH by (intros v' y Hy; apply Hbody; now right).
    now rewrite app_assoc.
Qed.

Lemma for_each_total {A S : Type} (body : S -> A -> result S) (l : list A) :
  (forall s x, In x l -> exists s', body s x = Ok s') ->
  forall s, exists s', for_each body l s = Ok s'.
Proof.
  induction l as [|x l IH]; intros Hbody s.
  - exists s. reflexivity.
  - simpl. destruct (Hbody s x) as [s1 ->]; [now left|]. cbn [bind].
    apply IH. intros s2 y Hy. apply Hbody. now right.
Qed.

Lemma flat_map_nil {A B : Type} (f : A -> list B) (l : list A) :
  (forall x, f x = []) -> flat_map f l = [].
Proof.
  intros Hf. induction l as [|x l IH]; [reflexivity|].
  simpl. now rewrite Hf, IH.
Qed.

Lemma flat_map_length_le {A B : Type} (f g : A -> list B) (l : list A) :
  (forall x, (length (f x) <= length (g x))%nat) ->
  (length (flat_map f l) <= length (flat_map g l))%nat.
Proof.
  intros Hfg. induction l as [|x l IH]; [simpl; lia|].
  simpl. rewrite !length_app. specialize (Hfg x). lia.
Qed.

(** ** The two finders as comprehensions *)

Section FinderProperties.

Variable geodesic_meters : R -> R -> R -> R -> result R.

Lemma temporal_candidate_ok (m : R) (prow : Row) (v : list Conflict) (o : Row) :
  temporal_candidate geodesic_meters m prow v o
  = Ok (v ++ verified geodesic_meters m (row_tuple prow) o).
Proof.
  unfold temporal_candidate. rewrite dist_3d_of_ok. cbn [bind].
  unfold verified, row_tuple, wp_lat, wp_lon, wp_alt. cbv beta iota.
  destruct (Rlt_dec _ m); [reflexivity|now rewrite app_nil_r].
Qed.

Lemma temporal_check_df_ok (df : DataFrame) (pid : Z) (tw m : R) :
  temporal_check_df geodesic_meters df pid tw m
  = Ok (temporal_records geodesic_meters df pid tw m).
Proof.
  unfold temporal_check_df, temporal_records.
  destruct (rows_of pid df) as [|p0 ps] eqn:Ep; [reflexivity|].
  destruct (rows_not_of pid df) as [|o0 os] eqn:Eo.
  - cbn [is_empty orb]. now rewrite flat_map_nil.
  - cbn [is_empty orb].
    apply (for_each_app _
             (fun prow =>
                flat_map (verified geodesic_meters m (row_tuple prow))
                  (filter (in_window (Timedelta_seconds tw) (Time prow))
                          (o0 :: os)))).
    intros v prow _.
    destruct (filter (in_window (Timedelta_seconds tw) (Time prow)) (o0 :: os))
      as [|w ws]; [simpl; now rewrite app_nil_r|].
    cbn [is_empty].
    apply for_each_app. intros v' o _. apply temporal_candidate_ok.
Qed.

Lemma spatial_candidate_ok (m : R) (p : Waypoint) (v : list Conflict) (o : Row) :
  spatial_candidate geodesic_meters m p v o
  = Ok (v ++ if Rlt_dec TIME_TOLERANCE_SEC
                        (Rabs (total_seconds (wp_time p - Time o)))
             then [] else verified geodesic_meters m p o).
Proof.
  destruct p as [[[t lat] lon] alt].
  unfold spatial_candidate, verified, wp_time, wp_lat, wp_lon, wp_alt.
  destruct (Rlt_dec TIME_TOLERANCE_SEC _); [now rewrite app_nil_r|].
  rewrite dist_3d_of_ok. cbn [bind].
  destruct (Rlt_dec _ m); [reflexivity|now rewrite app_nil_r].
Qed.

Lemma candidates_loop_ok (m cos_ref : R) (p : Waypoint) (all : list Row) :
  forall (rest pre : list Row) (v : list Conflict),
    all = pre ++ rest ->
    for_each
      (fun violations idx =>
         o_wp <- list_get all idx ;;
         spatial_candidate geodesic_meters m p violations o_wp)
      (ball_indices
         (map (fun wp => project cos_ref (Latitude wp) (Longitude wp)) rest)
         (length pre) (project cos_ref (wp_lat p) (wp_lon p)) m)
      v
    = Ok (v ++ flat_map (spatial_emit geodesic_meters cos_ref m p) rest).
Proof.
  induction rest as [|o rest IH]; intros pre v Hall.
  - simpl. now rewrite app_nil_r.
  - assert (Hall' : all = (pre ++ [o]) ++ rest) by now rewrite <- app_assoc.
    assert (Hlen : length (pre ++ [o]) = S (length pre))
      by (rewrite length_app; simpl; lia).
    specialize (IH (pre ++ [o])). rewrite Hlen in IH.
    cbn [map ball_indices flat_map]. unfold spatial_emit at 1.
    destruct (Rle_dec _ m) as [Hin|Hout].
    + cbn [for_each]. unfold list_get at 1.
      rewrite Hall at 1.
      rewrite nth_error_app2 by lia. rewrite Nat.sub_diag. cbn [nth_error bind].
      rewrite spatial_candidate_ok. cbn [bind].
      rewrite (IH _ Hall'). now rewrite app_assoc.
    + rewrite (IH _ Hall'). reflexivity.
Qed.

Lemma spatial_check_with_index_ok (pws : list Waypoint) (ows : list Row) (m : R) :
  spatial_check_with_index geodesic_meters pws ows m
  = Ok (spatial_records geodesic_meters pws ows m).
Proof.
  unfold spatial_check_with_index, spatial_records, build_spatial_index.
  destruct ows as [|o ows'].
  - cbn [is_empty]. now rewrite flat_map_nil.
  - cbn [is_empty]. set (ows := o :: ows').
    set (cos_ref := cos (math_radians (np_mean (map Latitude ows)))).
    replace (2 * length (map (fun wp => project cos_ref (Latitude wp) (Longitude wp)) ows)
             =? 0)%nat with false
      by (unfold ows; simpl; reflexivity).
    apply (for_each_app _
             (fun p => flat_map (spatial_emit geodesic_meters cos_ref m p) ows)).
    intros v p _. destruct p as [[[t lat] lon] alt].
    unfold query_ball_point. cbn [tree_data].
    apply (candidates_loop_ok m cos_ref (t, lat, lon, alt) ows ows [] v).
    reflexivity.
Qed.

End FinderProperties.

(** ** Grouping and sorting *)

Lemma insert_key_In (k x : Z) (ks : list Z) :
  In k (insert_key x ks) -> k = x \/ In k ks.
Proof.
  induction ks as [|y ks IH]; simpl.
  - intros [H|[]]. now left.
  - destruct (x <? y)%Z.
    + intros [H|H]; [now left|now right].
    + destruct (x =? y)%Z; [now right|].
      intros [H|H]; [right; now left|].
      destruct (IH H) as [H'|H']; [now left|right; now right].
Qed.

Lemma group_keys_In (k : Z) (df : DataFrame) :
  In k (group_keys df) -> exists r, In r df /\ DroneID r = k.
Proof.
  unfold group_keys. induction df as [|r df IH]; simpl; [intros []|].
  intros H. destruct (insert_key_In _ _ _ H) as [->|H'].
  - exists r. split; [now left|reflexivity].
  - destruct (IH H') as [r' [Hr' Hk]]. exists r'. split; [now right|exact Hk].
Qed.

Lemma rows_of_In (pid : Z) (df : DataFrame) (r : Row) :
  In r (rows_of pid df) <-> In r df /\ DroneID r = pid.
Proof.
  unfold rows_of. rewrite filter_In, Z.eqb_eq. reflexivity.
Qed.

Lemma rows_not_of_In (pid : Z) (df : DataFrame) (r : Row) :
  In r (rows_not_of pid df) <-> In r df /\ DroneID r <> pid.
Proof.
  unfold rows_not_of. rewrite filter_In, negb_true_iff, Z.eqb_neq. reflexivity.
Qed.

Lemma insert_by_time_nonempty (r : Row) (l : list Row) :
  insert_by_time r l <> [].
Proof.
  destruct l as [|x l]; simpl; [discriminate|].
  destruct (Rle_dec (Time r) (Time x)); discriminate.
Qed.

Lemma sort_values_Time_nonempty (df : DataFrame) :
  df <> [] -> sort_values_Time df <> [].
Proof.
  destruct df as [|r df]; [congruence|]. intros _.
  apply insert_by_time_nonempty.
Qed.

Lemma groupby_group_nonempty (df : DataFrame) (k : Z) (group : DataFrame) :
  In (k, group) (groupby_DroneID df) -> group <> [].
Proof.
  unfold groupby_DroneID. rewrite in_map_iff.
  intros [k' [E Hk]]. injection E as -> <-.
  destruct (group_keys_In _ _ Hk) as [r [Hr Hid]].
  assert (Hin : In r (rows_of k df)) by (apply rows_of_In; now split).
  intros E. rewrite E in Hin. exact Hin.
Qed.

(** ** The orchestrator *)

Section EngineProperties.

Variable geodesic_meters : R -> R -> R -> R -> result R.

Lemma collect_groups_ok (df : DataFrame) (pid : Z) (step : R) :
  exists ows,
    for_each (collect_group pid step) (groupby_DroneID df) [] = Ok ows.
Proof.
  apply for_each_total. intros s [k group] Hin.
  unfold collect_group.
  destruct (k =? pid)%Z; [eexists; reflexivity|].
  destruct (Rlt_dec 0 step); [|eexists; reflexivity].
  destruct (interpolate_trajectory_nonempty (sort_values_Time group) step)
    as [rows ->].
  { apply sort_values_Time_nonempty. eapply groupby_group_nonempty; eassumption. }
  eexists; reflexivity.
Qed.

(** The orchestrator never raises: it returns two empty lists when the
    primary has no rows, and otherwise what the two finders return, the
    resampled waypoints depending on neither threshold nor window. *)
Lemma check_primary_mission_conflicts_ok (df : DataFrame) (pid : Z) (step : R) :
  exists pws ows,
    forall m tw,
      check_primary_mission_conflicts geodesic_meters df pid m tw step
      = Ok (if is_empty (rows_of pid df) then ([], [])
            else (spatial_records geodesic_meters pws ows m,
                  temporal_records geodesic_meters df pid tw m)).
Proof.
  destruct (collect_groups_ok df pid step) as [ows Hows].
  unfold check_primary_mission_conflicts. rewrite Hows. cbn [bind].
  destruct (rows_of pid df) as [|r rs] eqn:Ep.
  - exists [], ows. intros m tw. reflexivity.
  - assert (Hne : sort_values_Time (r :: rs) <> [])
      by (apply sort_values_Time_nonempty; discriminate).
    destruct (sort_values_Time (r :: rs)) as [|x xs] eqn:Es; [congruence|].
    cbn [is_empty].
    assert (Hpws : exists pws,
               (if Rlt_dec 0 step then interpolate_trajectory (x :: xs) step
                else Ok (map row_tuple (x :: xs))) = Ok pws).
    { destruct (Rlt_dec 0 step); [|eexists; reflexivity].
      apply interpolate_trajectory_nonempty. discriminate. }
    destruct Hpws as [pws Hpws]. exists pws, ows. intros m tw.
    rewrite Hpws. cbn [bind].
    rewrite spatial_check_with_index_ok. cbn [bind].
    rewrite temporal_check_df_ok. reflexivity.
Qed.

Lemma verified_length_le (m1 m2 : R) (p : Waypoint) (o : Row) :
  m1 <= m2 ->
  (length (verified geodesic_meters m1 p o)
   <= length (verified geodesic_meters m2 p o))%nat.
Proof.
  intros Hm. unfold verified.
  destruct (Rlt_dec _ m1) as [H1|H1]; destruct (Rlt_dec _ m2) as [H2|H2];
    simpl; try lia.
  exfalso. apply H2. lra.
Qed.

Lemma spatial_emit_length_le (cos_ref m1 m2 : R) (p : Waypoint) (o : Row) :
  m1 <= m2 ->
  (length (spatial_emit geodesic_meters cos_ref m1 p o)
   <= length (spatial_emit geodesic_meters cos_ref m2 p o))%nat.
Proof.
  intros Hm. unfold spatial_emit.
  destruct (Rle_dec _ m1) as [H1|H1]; destruct (Rle_dec _ m2) as [H2|H2];
    try (simpl; lia).
  - destruct (Rlt_dec TIME_TOLERANCE_SEC _); [simpl; lia|].
    now apply verified_length_le.
  - exfalso. apply H2. lra.
Qed.

Lemma spatial_records_length_le (pws : list Waypoint) (ows : list Row) (m1 m2 : R) :
  m1 <= m2 ->
  (length (spatial_records geodesic_meters pws ows m1)
   <= length (spatial_records geodesic_meters pws ows m2))%nat.
Proof.
  intros Hm. unfold spatial_records.
  apply flat_map_length_le. intros p.
  apply flat_map_length_le. intros o.
  now apply spatial_emit_length_le.
Qed.

Lemma temporal_records_length_le (df : DataFrame) (pid : Z) (tw m1 m2 : R) :
  m1 <= m2 ->
  (length (temporal_records geodesic_meters df pid tw m1)
   <= length (temporal_records geodesic_meters df pid tw m2))%nat.
Proof.
  intros Hm. unfold temporal_records.
  apply flat_map_length_le. intros p.
  apply flat_map_length_le. intros o.
  now apply verified_length_le.
Qed.

Lemma verified_In (m : R) (p p' : Waypoint) (o o' : Row) (d : R) :
  In (p', o', d) (verified geodesic_meters m p o) <->
  p' = p /\ o' = o /\
  d = dist_3d geodesic_meters (wp_lat p) (wp_lon p) (wp_alt p) o /\ d < m.
Proof.
  unfold verified.
  destruct (Rlt_dec _ m) as [Hlt|Hge]; simpl.
  - split.
    + intros [E|[]]. injection E as <- <- <-. repeat split; assumption.
    + intros [-> [-> [-> _]]]. now left.
  - split; [intros []|]. intros [_ [_ [-> Hd]]]. contradiction.
Qed.

Lemma spatial_records_time (pws : list Waypoint) (ows : list Row) (m : R)
  (p : Waypoint) (o : Row) (d : R) :
  In (p, o, d) (spatial_records geodesic_meters pws ows m) ->
  Rabs (wp_time p - Time o) <= 1 / 10.
Proof.
  unfold spatial_records. rewrite in_flat_map.
  intros [p0 [_ H]]. rewrite in_flat_map in H. destruct H as [o0 [_ H]].
  unfold spatial_emit in H.
  destruct (Rle_dec _ m); [|destruct H].
  destruct (Rlt_dec TIME_TOLERANCE_SEC _) as [Hfar|Hnear]; [destruct H|].
  apply verified_In in H. destruct H as [-> [-> _]].
  unfold TIME_TOLERANCE_SEC, total_seconds in Hnear. lra.
Qed.

End EngineProperties.

Lemma in_window_spec (tw t : R) (o : Row) :
  in_window (Timedelta_seconds tw) t o = true <-> t - tw <= Time o <= t + tw.
Proof.
  unfold in_window, Timedelta_seconds, Rle_b. rewrite andb_true_iff.
  destruct (Rle_dec (t - tw) (Time o)); destruct (Rle_dec (Time o) (t + tw));
    split; intros [H1 H2]; try discriminate; try contradiction; now split.
Qed.

(** ** What the finders and the orchestrator guarantee *)

Section EngineGuarantees.

Variable geodesic_meters : R -> R -> R -> R -> result R.

(** C3.  With dataset, primary id, time window and interpolation step
    fixed, raising the distance threshold never lowers the number of
    spatial conflicts nor the number of temporal conflicts that the
    engine returns. *)
Theorem conflict_counts_monotone (df : DataFrame) (pid : Z)
  (tw step m1 m2 : R) :
  m1 <= m2 ->
  exists s1 t1 s2 t2,
    check_primary_mission_conflicts geodesic_meters df pid m1 tw step = Ok (s1, t1) /\
    check_primary_mission_conflicts geodesic_meters df pid m2 tw step = Ok (s2, t2) /\
    (length s1 <= length s2)%nat /\ (length t1 <= length t2)%nat.
Proof.
  intros Hm.
  destruct (check_primary_mission_conflicts_ok geodesic_meters df pid step)
    as [pws [ows Hok]].
  destruct (is_empty (rows_of pid df)) eqn:E.
  - exists [], [], [], []. rewrite !Hok. repeat split; simpl; lia.
  - exists (spatial_records geodesic_meters pws ows m1),
           (temporal_records geodesic_meters df pid tw m1),
           (spatial_records geodesic_meters pws ows m2),
           (temporal_records geodesic_meters df pid tw m2).
    rewrite !Hok. split; [reflexivity|]. split; [reflexivity|]. split.
    + now apply spatial_records_length_le.
    + now apply temporal_records_length_le.
Qed.

(** C4.  The temporal finder returns without raising, and it emits a
    record for a primary waypoint and another drone's waypoint exactly
    when the other's timestamp lies in the closed window around the
    primary's and the 3D distance, built from the accurate horizontal
    distance and the altitude difference, is strictly below the
    threshold; without primary rows or without other rows the list is
    empty. *)
Theorem temporal_check_df_spec (df : DataFrame) (pid : Z) (tw m : R) :
  exists v,
    temporal_check_df geodesic_meters df pid tw m = Ok v /\
    (forall p o d,
       In (p, o, d) v <->
       exists prow,
         In prow df /\ DroneID prow = pid /\ p = row_tuple prow /\
         In o df /\ DroneID o <> pid /\
         Time prow - tw <= Time o <= Time prow + tw /\
         exists h,
           safe_geodesic_meters geodesic_meters (Latitude prow) (Longitude prow)
                                (Latitude o) (Longitude o) = Ok h /\
           d = sqrt (h ^ 2 + Rabs (Altitude prow - Altitude o) ^ 2) /\
           d < m) /\
    (rows_of pid df = [] \/ rows_not_of pid df = [] -> v = []).
Proof.
  exists (temporal_records geodesic_meters df pid tw m).
  split; [apply temporal_check_df_ok|]. split.
  - intros p o d. unfold temporal_records. rewrite in_flat_map. split.
    + intros [prow [Hp H]]. apply in_flat_map in H. destruct H as [o0 [Ho H]].
      apply filter_In in Ho. destruct Ho as [Ho Hw].
      apply verified_In in H. destruct H as [-> [-> [Hd Hlt]]].
      apply rows_of_In in Hp. apply rows_not_of_In in Ho.
      apply in_window_spec in Hw.
      exists prow. repeat split; try tauto.
      exists (horizontal geodesic_meters (Latitude prow) (Longitude prow)
                         (Latitude o0) (Longitude o0)).
      split; [apply safe_geodesic_meters_ok|]. split; [exact Hd|exact Hlt].
    + intros [prow [Hin [Hid [-> [Hino [Hido [Hw [h [Hh [Hd Hlt]]]]]]]]]].
      exists prow. split; [apply rows_of_In; now split|].
      apply in_flat_map. exists o. split.
      * apply filter_In. split; [apply rows_not_of_In; now split|].
        now apply in_window_spec.
      * apply verified_In.
        rewrite safe_geodesic_meters_ok in Hh. injection Hh as <-.
        repeat split; assumption.
  - unfold temporal_records. intros [E|E]; rewrite E; [reflexivity|].
    now apply flat_map_nil.
Qed.

(** C5.  A candidate of the radius query whose timestamp is more than
    0.1 s away from the primary waypoint's is dropped before any distance
    is computed; the tolerance is a constant, so the spatial conflicts do
    not depend on the caller's time window; and every spatial record
    pairs waypoints whose timestamps differ by at most 0.1 s. *)
Theorem spatial_time_tolerance (m : R) :
  TIME_TOLERANCE_SEC = 1 / 10 /\
  (forall p v o,
     1 / 10 < Rabs (wp_time p - Time o) ->
     spatial_candidate geodesic_meters m p v o = Ok v) /\
  (forall pws ows,
     exists v,
       spatial_check_with_index geodesic_meters pws ows m = Ok v /\
       forall p o d, In (p, o, d) v -> Rabs (wp_time p - Time o) <= 1 / 10) /\
  (forall df pid step tw,
     exists sp te,
       check_primary_mission_conflicts geodesic_meters df pid m tw step
       = Ok (sp, te) /\
       (forall tw', exists te',
          check_primary_mission_conflicts geodesic_meters df pid m tw' step
          = Ok (sp, te')) /\
       (forall p o d, In (p, o, d) sp -> Rabs (wp_time p - Time o) <= 1 / 10)).
Proof.
  split; [reflexivity|]. split; [|split].
  - intros [[[t lat] lon] alt] v o Hfar.
    unfold spatial_candidate, wp_time in *.
    destruct (Rlt_dec TIME_TOLERANCE_SEC _) as [_|Hn]; [reflexivity|].
    exfalso. apply Hn. unfold TIME_TOLERANCE_SEC, total_seconds. exact Hfar.
  - intros pws ows. eexists. split; [apply spatial_check_with_index_ok|].
    intros p o d. apply spatial_records_time.
  - intros df pid step tw.
    destruct (check_primary_mission_conflicts_ok geodesic_meters df pid step)
      as [pws [ows Hok]].
    destruct (is_empty (rows_of pid df)) eqn:E.
    + exists [], []. split; [apply Hok|]. split.
      * intros tw'. exists []. apply Hok.
      * intros p o d [].
    + exists (spatial_records geodesic_meters pws ows m),
             (temporal_records geodesic_meters df pid tw m).
      split; [apply Hok|]. split.
      * intros tw'. eexists. apply Hok.
      * intros p o d. apply spatial_records_time.
Qed.

(** C6.  When the primary id has no rows in the dataset, the engine
    returns the pair of two empty lists and does not raise. *)
Theorem no_primary_rows_empty_result (df : DataFrame) (pid : Z)
  (m tw step : R) :
  (forall r, In r df -> DroneID r <> pid) ->
  check_primary_mission_conflicts geodesic_meters df pid m tw step
  = Ok ([], []).
Proof.
  intros Hno.
  destruct (check_primary_mission_conflicts_ok geodesic_meters df pid step)
    as [pws [ows Hok]].
  rewrite Hok.
  destruct (rows_of pid df) as [|r rs] eqn:E; [reflexivity|].
  exfalso. assert (Hin : In r (rows_of pid df)) by (rewrite E; now left).
  apply rows_of_In in Hin. destruct Hin as [Hin Hid].
  exact (Hno r Hin Hid).
Qed.

(** C9.  The status of [query_mission_status] is "clear" exactly when
    both conflict lists it returns are empty, and "conflict detected"
    exactly when one of them is not; the lists are those of the
    engine. *)
Theorem query_status_clear_iff (df : DataFrame) (pid : Z) (m tw step : R) :
  exists r,
    query_mission_status geodesic_meters df pid m tw step = Ok r /\
    check_primary_mission_conflicts geodesic_meters df pid m tw step
    = Ok (spatial_conflicts r, temporal_conflicts r) /\
    (status r = "clear"%string <->
     spatial_conflicts r = [] /\ temporal_conflicts r = []) /\
    (status r = "conflict detected"%string <->
     ~ (spatial_conflicts r = [] /\ temporal_conflicts r = [])).
Proof.
  destruct (check_primary_mission_conflicts_ok geodesic_meters df pid step)
    as [pws [ows Hok]].
  unfold query_mission_status. rewrite Hok. cbn [bind].
  destruct (if is_empty (rows_of pid df) then ([], [])
            else (spatial_records geodesic_meters pws ows m,
                  temporal_records geodesic_meters df pid tw m))
    as [sp te].
  eexists. split; [reflexivity|]. cbn [status spatial_conflicts temporal_conflicts].
  split; [reflexivity|].
  destruct sp as [|c sp]; destruct te as [|c' te]; cbn [is_empty andb];
    split; split; try discriminate; try tauto;
    try (intros [H1 H2]; discriminate); try (intros _ [H1 H2]; discriminate).
Qed.

End EngineGuarantees.

Lemma conflict_counts_monotone_witness :
  5 <= 10 /\
  exists s1 t1 s2 t2,
    check_primary_mission_conflicts geodesic_meridian simple_df 1 5 1 (1 / 2)
    = Ok (s1, t1) /\
    check_primary_mission_conflicts geodesic_meridian simple_df 1 10 1 (1 / 2)
    = Ok (s2, t2) /\
    (length s1 <= length s2)%nat /\ (length t1 <= length t2)%nat.
Proof.
  assert (H : 5 <= 10) by lra.
  split; [exact H|].
  exact (conflict_counts_monotone geodesic_meridian simple_df 1 1 (1 / 2) 5 10 H).
Defined.

Lemma others_only_df_no_primary (r : Row) :
  In r others_only_df -> DroneID r <> 1%Z.
Proof.
  unfold others_only_df. intros [<-|[<-|[<-|[]]]]; simpl; lia.
Qed.

Lemma no_primary_rows_empty_result_witness :
  check_primary_mission_conflicts geodesic_meridian others_only_df 1 10 1 (1 / 2)
  = Ok ([], []).
Proof.
  apply (no_primary_rows_empty_result geodesic_meridian others_only_df 1 10 1 (1 / 2)).
  exact others_only_df_no_primary.
Defined.

(** * Further properties of the code *)

(** ** utils/geo.py: the haversine distance *)

Lemma haversine_a_bounds (lat1 lon1 lat2 lon2 : R) :
  0 <= haversine_a lat1 lon1 lat2 lon2 <= 1.
Proof.
  unfold haversine_a.
  replace (math_radians (lat2 - lat1))
    with (math_radians lat2 - math_radians lat1)
    by (unfold math_radians; ring).
  apply haversine_radicand_bounds.
Qed.

Lemma haversine_meters_value (lat1 lon1 lat2 lon2 : R) :
  haversine_meters lat1 lon1 lat2 lon2
  = Ok (2 * 6371000 * asin (sqrt (haversine_a lat1 lon1 lat2 lon2))).
Proof.
  change (haversine_meters lat1 lon1 lat2 lon2)
    with (s <- math_sqrt (haversine_a lat1 lon1 lat2 lon2) ;;
          c <- math_asin s ;; Ok (2 * 6371000 * c)).
  assert (Ha := haversine_a_bounds lat1 lon1 lat2 lon2).
  set (a := haversine_a lat1 lon1 lat2 lon2) in *.
  assert (Hs0 : 0 <= sqrt a) by apply sqrt_pos.
  assert (Hs1 : sqrt a <= 1).
  { rewrite <- sqrt_1. apply sqrt_le_1_alt. lra. }
  unfold math_sqrt. destruct (Rlt_dec a 0) as [Hlt|_]; [lra|].
  cbn [bind]. unfold math_asin.
  destruct (Rlt_dec (sqrt a) (-1)) as [Hlt|_]; [lra|].
  destruct (Rlt_dec 1 (sqrt a)) as [Hlt|_]; [lra|].
  reflexivity.
Qed.


(** The haversine distance does not depend on the order of the two
    points. *)
Theorem haversine_meters_symmetric (lat1 lon1 lat2 lon2 : R) :
  haversine_meters lat1 lon1 lat2 lon2 = haversine_meters lat2 lon2 lat1 lon1.
Proof.
  rewrite !haversine_meters_value.
  assert (Ha : haversine_a lat1 lon1 lat2 lon2 = haversine_a lat2 lon2 lat1 lon1).
  { unfold haversine_a.
    replace (math_radians (lat1 - lat2) / 2)
      with (- (math_radians (lat2 - lat1) / 2))
      by (unfold math_radians; field).
    replace (math_radians (lon1 - lon2) / 2)
      with (- (math_radians (lon2 - lon1) / 2))
      by (unfold math_radians; field).
    rewrite !sin_neg. ring. }
  now rewrite Ha.
Qed.

(** Moving one point by a full turn of 360 degrees of longitude leaves
    the haversine distance unchanged. *)
Theorem haversine_meters_longitude_period (lat1 lon1 lat2 lon2 : R) :
  haversine_meters lat1 lon1 lat2 (lon2 + 360)
  = haversine_meters lat1 lon1 lat2 lon2.
Proof.
  rewrite !haversine_meters_value.
  assert (Ha : haversine_a lat1 lon1 lat2 (lon2 + 360)
               = haversine_a lat1 lon1 lat2 lon2).
  { unfold haversine_a.
    replace (math_radians (lon2 + 360 - lon1) / 2)
      with (math_radians (lon2 - lon1) / 2 + PI)
      by (unfold math_radians; field).
    rewrite neg_sin. ring. }
  now rewrite Ha.
Qed.

Lemma sin_half_abs_sqr (x : R) : sin (x / 2) ^ 2 = sin (Rabs x / 2) ^ 2.
Proof.
  unfold Rabs. destruct (Rcase_abs x) as [Hneg|Hpos]; [|reflexivity].
  replace (- x / 2) with (- (x / 2)) by field.
  rewrite sin_neg. ring.
Qed.

Lemma haversine_meridian_arc (lat1 lat2 lon : R) :
  Rabs (lat2 - lat1) <= 180 ->
  asin (sqrt (haversine_a lat1 lon lat2 lon))
  = math_radians (Rabs (lat2 - lat1)) / 2.
Proof.
  intros Hd.
  assert (Hpi := PI_RGT_0).
  assert (Habs := Rabs_pos (lat2 - lat1)).
  set (x := Rabs (math_radians (lat2 - lat1)) / 2).
  assert (Hx : x = math_radians (Rabs (lat2 - lat1)) / 2).
  { unfold x, math_radians. rewrite Rabs_mult.
    rewrite (Rabs_pos_eq (PI / 180)) by lra. reflexivity. }
  assert (Hx0 : 0 <= x) by (rewrite Hx; unfold math_radians; nra).
  assert (Hx1 : x <= PI / 2) by (rewrite Hx; unfold math_radians; nra).
  assert (Ha : haversine_a lat1 lon lat2 lon = sin x ^ 2).
  { unfold haversine_a.
    replace (math_radians (lon - lon) / 2) with 0
      by (unfold math_radians; field).
    rewrite sin_0, sin_half_abs_sqr. fold x. ring. }
  rewrite Ha.
  assert (Hsin : 0 <= sin x) by (apply sin_ge_0; lra).
  rewrite sqrt_pow2 by exact Hsin.
  rewrite asin_sin by lra.
  exact Hx.
Qed.

(** Between two points of the same meridian at most 180 degrees of
    latitude apart, the haversine distance is the arc length: the radius
    times the latitude difference in radians.  In particular the distance
    from a point to itself is 0. *)
Theorem haversine_meters_meridian (lat1 lat2 lon : R) :
  Rabs (lat2 - lat1) <= 180 ->
  haversine_meters lat1 lon lat2 lon
  = Ok (6371000 * math_radians (Rabs (lat2 - lat1))).
Proof.
  intros Hd. rewrite haversine_meters_value.
  rewrite (haversine_meridian_arc lat1 lat2 lon Hd).
  f_equal. field.
Qed.

Lemma haversine_meters_meridian_witness :
  haversine_meters 30 (-120) 31 (-120)
  = Ok (6371000 * math_radians (Rabs (31 - 30))).
Proof.
  apply (haversine_meters_meridian 30 31 (-120)).
  rewrite Rabs_pos_eq; lra.
Defined.

(** ** engine/interpolation.py: what resampling keeps *)

Lemma StronglySorted_Rlt_app (l1 l2 : list R) :
  StronglySorted Rlt l1 -> StronglySorted Rlt l2 ->
  (forall x y, In x l1 -> In y l2 -> x < y) ->
  StronglySorted Rlt (l1 ++ l2).
Proof.
  induction l1 as [|a l1 IH]; simpl; intros H1 H2 H; [exact H2|].
  inversion H1 as [|? ? Hs Hf]; subst. constructor.
  - apply IH; auto.
  - apply Forall_app. split; [exact Hf|].
    apply Forall_forall. intros y Hy. apply H; auto.
Qed.

Lemma seq_map_sorted (g : nat -> R) (a m : nat) :
  (forall i j, (i < j)%nat -> g i < g j) ->
  StronglySorted Rlt (map g (seq a m)).
Proof.
  intros Hg. revert a. induction m as [|m IH]; intros a; simpl; constructor.
  - apply IH.
  - apply Forall_forall. intros y Hy.
    apply in_map_iff in Hy. destruct Hy as [j [<- Hj]].
    apply in_seq in Hj. apply Hg. lia.
Qed.

Lemma segment_samples_time_bounds (step : R) (w0 w1 : Row) (s : Waypoint) :
  In s (segment_samples step w0 w1) -> Time w0 <= wp_time s < Time w1.
Proof.
  unfold segment_samples, total_seconds.
  destruct (Rle_dec (Time w1 - Time w0) 0) as [Hle|Hgt]; [intros []|].
  intros Hin. apply in_map_iff in Hin. destruct Hin as [k [<- Hk]].
  apply py_range_In in Hk.
  set (n := Z.max 1 (Zceil ((Time w1 - Time w0) / step))) in *.
  assert (Hn : 0 < IZR n) by (apply IZR_lt; lia).
  assert (Hk0 : 0 <= IZR k) by (apply IZR_le; lia).
  assert (Hkn : IZR k < IZR n) by (apply IZR_lt; lia).
  set (frac := IZR k / IZR n).
  assert (Hfrac : frac * IZR n = IZR k) by (unfold frac; field; lra).
  assert (Hf0 : 0 <= frac) by nra.
  assert (Hf1 : frac < 1) by nra.
  unfold sample_at, Timedelta_seconds, wp_time. split; nra.
Qed.

Lemma segment_samples_sorted (step : R) (w0 w1 : Row) :
  StronglySorted Rlt (map wp_time (segment_samples step w0 w1)).
Proof.
  unfold segment_samples, total_seconds.
  destruct (Rle_dec (Time w1 - Time w0) 0) as [Hle|Hgt]; [constructor|].
  set (n := Z.max 1 (Zceil ((Time w1 - Time w0) / step))).
  assert (Hn : 0 < IZR n) by (apply IZR_lt; lia).
  unfold py_range. rewrite !map_map.
  apply seq_map_sorted. intros i j Hij.
  unfold sample_at, Timedelta_seconds, wp_time.
  assert (Hlt : IZR (Z.of_nat i) < IZR (Z.of_nat j)) by (apply IZR_lt; lia).
  assert (Hdiv : IZR (Z.of_nat i) / IZR n < IZR (Z.of_nat j) / IZR n).
  { unfold Rdiv. apply Rmult_lt_compat_r; [now apply Rinv_0_lt_compat|exact Hlt]. }
  nra.
Qed.

Lemma sorted_last (l : list Row) :
  forall w wl,
    consecutive (fun a b => Time a <= Time b) (w :: l) ->
    last_item (w :: l) = Ok wl -> Time w <= Time wl.
Proof.
  induction l as [|b l IH]; intros w wl Hs Hl.
  - simpl in Hl. injection Hl as <-. lra.
  - destruct Hs as [Hab Hs].
    change (last_item (w :: b :: l)) with (last_item (b :: l)) in Hl.
    specialize (IH b wl Hs Hl). lra.
Qed.

Lemma interpolate_segments_sorted (step : R) (rest : list Row) :
  forall w0,
    consecutive (fun a b => Time a <= Time b) (w0 :: rest) ->
    StronglySorted Rlt (map wp_time (interpolate_segments step (w0 :: rest))) /\
    forall s, In s (interpolate_segments step (w0 :: rest)) ->
      Time w0 <= wp_time s /\
      forall wl, last_item (w0 :: rest) = Ok wl -> wp_time s < Time wl.
Proof.
  induction rest as [|w1 rest IH]; intros w0 Hs.
  - simpl. split; [constructor|intros s []].
  - destruct Hs as [H01 Hs].
    destruct (IH w1 Hs) as [IHs IHb].
    change (interpolate_segments step (w0 :: w1 :: rest))
      with (segment_samples step w0 w1 ++ interpolate_segments step (w1 :: rest)).
    split.
    + rewrite map_app. apply StronglySorted_Rlt_app.
      * apply segment_samples_sorted.
      * exact IHs.
      * intros x y Hx Hy.
        apply in_map_iff in Hx. destruct Hx as [sx [<- Hx]].
        apply in_map_iff in Hy. destruct Hy as [sy [<- Hy]].
        apply segment_samples_time_bounds in Hx.
        destruct (IHb sy Hy) as [Hy1 _]. lra.
    + intros s Hin. apply in_app_or in Hin. destruct Hin as [Hin|Hin].
      * apply segment_samples_time_bounds in Hin. split; [lra|].
        intros wl Hl.
        change (last_item (w0 :: w1 :: rest)) with (last_item (w1 :: rest)) in Hl.
        assert (H1l := sorted_last rest w1 wl Hs Hl). lra.
      * destruct (IHb s Hin) as [Hlo Hhi]. split; [lra|].
        intros wl Hl. apply Hhi. exact Hl.
Qed.

(** For a trajectory sorted by time and a positive step, the timestamps
    of the resampled trajectory strictly increase, also where the input
    repeats a timestamp. *)
Theorem resample_times_increasing (df : DataFrame) (step : R) :
  0 < step -> df <> [] ->
  consecutive (fun a b => Time a <= Time b) df ->
  exists rows,
    interpolate_trajectory df step = Ok rows /\
    StronglySorted Rlt (map wp_time rows).
Proof.
  intros Hstep Hne Hs.
  destruct df as [|w0 [|w1 rest]]; [congruence| |].
  - exists [row_tuple w0]. split.
    + unfold interpolate_trajectory.
      destruct (Rle_dec step 0); [lra|reflexivity].
    + simpl. repeat constructor.
  - destruct (interpolate_trajectory_long (w0 :: w1 :: rest) step Hstep)
      as [final [Hf Hrows]]; [simpl; lia|].
    eexists. split; [exact Hrows|].
    destruct (interpolate_segments_sorted step (w1 :: rest) w0 Hs) as [Hsorted Hb].
    rewrite map_app. apply StronglySorted_Rlt_app.
    + exact Hsorted.
    + simpl. repeat constructor.
    + intros x y Hx [<-|[]].
      apply in_map_iff in Hx. destruct Hx as [s [<- Hx]].
      destruct (Hb s Hx) as [_ Hhi]. exact (Hhi final Hf).
Qed.

Lemma dup_df_sorted : consecutive (fun a b => Time a <= Time b) dup_df.
Proof. simpl. split; [lra|exact I]. Qed.

Lemma resample_times_increasing_witness :
  exists rows,
    interpolate_trajectory dup_df (1 / 2) = Ok rows /\
    StronglySorted Rlt (map wp_time rows).
Proof.
  apply (resample_times_increasing dup_df (1 / 2)).
  - lra.
  - discriminate.
  - exact dup_df_sorted.
Defined.

Lemma segment_samples_single (step : R) (w0 w1 : Row) :
  Time w0 < Time w1 <= Time w0 + step ->
  segment_samples step w0 w1 = [row_tuple w0].
Proof.
  intros [Hlt Hle]. unfold segment_samples, total_seconds.
  destruct (Rle_dec (Time w1 - Time w0) 0) as [H|_]; [lra|].
  assert (Hstep : 0 < step) by lra.
  assert (Hc : Zceil ((Time w1 - Time w0) / step) = 1%Z).
  { assert (Hq0 : 0 < (Time w1 - Time w0) / step)
      by (apply Rdiv_lt_0_compat; lra).
    assert (Hq1 : (Time w1 - Time w0) / step <= 1).
    { apply Rmult_le_reg_r with step; [exact Hstep|].
      unfold Rdiv. rewrite Rmult_assoc, Rinv_l by lra. lra. }
    apply Zceil_eq. lra. }
  rewrite Hc. change (py_range (Z.max 1 1)) with [0%Z]. simpl.
  f_equal. unfold Rdiv. rewrite Rmult_0_l. apply sample_at_0.
Qed.

Lemma interpolate_segments_coarse (step : R) (rest : list Row) :
  forall w0,
    consecutive (fun a b => Time a < Time b <= Time a + step) (w0 :: rest) ->
    exists final,
      last_item (w0 :: rest) = Ok final /\
      interpolate_segments step (w0 :: rest) ++ [row_tuple final]
      = map row_tuple (w0 :: rest).
Proof.
  induction rest as [|w1 rest IH]; intros w0 Hc.
  - exists w0. split; reflexivity.
  - destruct Hc as [H01 Hc]. destruct (IH w1 Hc) as [final [Hf Heq]].
    exists final. split; [exact Hf|].
    change (interpolate_segments step (w0 :: w1 :: rest))
      with (segment_samples step w0 w1 ++ interpolate_segments step (w1 :: rest)).
    rewrite (segment_samples_single step w0 w1 H01).
    cbn [app]. rewrite Heq. reflexivity.
Qed.

(** When the timestamps strictly increase and no gap between two
    neighbours is longer than the step, resampling adds nothing: the
    trajectory comes back unchanged. *)
Theorem resample_coarse_step_identity (df : DataFrame) (step : R) :
  df <> [] ->
  consecutive (fun a b => Time a < Time b <= Time a + step) df ->
  interpolate_trajectory df step = Ok (map row_tuple df).
Proof.
  intros Hne Hc. unfold interpolate_trajectory.
  destruct (Rle_dec step 0) as [_|Hstep]; [reflexivity|].
  destruct df as [|w0 [|w1 rest]]; [congruence|reflexivity|].
  cbn [length Nat.ltb Nat.leb].
  destruct (interpolate_segments_coarse step (w1 :: rest) w0 Hc)
    as [final [Hf Heq]].
  rewrite Hf. cbn [bind]. rewrite Heq. reflexivity.
Qed.

Lemma leg_df_coarse :
  consecutive (fun a b => Time a < Time b <= Time a + 2) leg_df.
Proof. simpl. split; [lra|exact I]. Qed.

Lemma resample_coarse_step_identity_witness :
  interpolate_trajectory leg_df 2 = Ok (map row_tuple leg_df).
Proof.
  apply (resample_coarse_step_identity leg_df 2).
  - discriminate.
  - exact leg_df_coarse.
Defined.

Lemma interpolate_segments_keeps (step : R) (rest : list Row) :
  forall w0 final,
    consecutive (fun a b => Time a < Time b) (w0 :: rest) ->
    last_item (w0 :: rest) = Ok final ->
    (forall w, In w (w0 :: rest) ->
       In (row_tuple w) (interpolate_segments step (w0 :: rest) ++ [row_tuple final])) /\
    (length (w0 :: rest)
     <= length (interpolate_segments step (w0 :: rest) ++ [row_tuple final]))%nat.
Proof.
  induction rest as [|w1 rest IH]; intros w0 final Hc Hf.
  - simpl in Hf. injection Hf as <-. split; [|simpl; lia].
    intros w [<-|[]]. now left.
  - destruct Hc as [H01 Hc].
    change (last_item (w0 :: w1 :: rest)) with (last_item (w1 :: rest)) in Hf.
    destruct (IH w1 final Hc Hf) as [IHin IHlen].
    change (interpolate_segments step (w0 :: w1 :: rest))
      with (segment_samples step w0 w1 ++ interpolate_segments step (w1 :: rest)).
    destruct (segment_samples_head step w0 w1 H01) as [tl Htl].
    rewrite Htl, <- app_assoc. split.
    + intros w [<-|Hw]; [now left|].
      apply in_or_app. right. now apply IHin.
    + rewrite length_app. simpl in *. lia.
Qed.

(** When the timestamps strictly increase, resampling with a positive
    step loses no logged waypoint: each one appears in the output, which
    is at least as long as the input. *)
Theorem resample_keeps_waypoints (df : DataFrame) (step : R) :
  0 < step -> df <> [] ->
  consecutive (fun a b => Time a < Time b) df ->
  exists rows,
    interpolate_trajectory df step = Ok rows /\
    (forall w, In w df -> In (row_tuple w) rows) /\
    (length df <= length rows)%nat.
Proof.
  intros Hstep Hne Hc.
  destruct df as [|w0 [|w1 rest]]; [congruence| |].
  - exists [row_tuple w0]. split; [|split].
    + unfold interpolate_trajectory.
      destruct (Rle_dec step 0); [lra|reflexivity].
    + intros w [<-|[]]. now left.
    + simpl. lia.
  - destruct (interpolate_trajectory_long (w0 :: w1 :: rest) step Hstep)
      as [final [Hf Hrows]]; [simpl; lia|].
    eexists. split; [exact Hrows|].
    exact (interpolate_segments_keeps step (w1 :: rest) w0 final Hc Hf).
Qed.

Lemma leg_df_increasing : consecutive (fun a b => Time a < Time b) leg_df.
Proof. simpl. split; [lra|exact I]. Qed.

Lemma resample_keeps_waypoints_witness :
  exists rows,
    interpolate_trajectory leg_df (1 / 2) = Ok rows /\
    (forall w, In w leg_df -> In (row_tuple w) rows) /\
    (length leg_df <= length rows)%nat.
Proof.
  apply (resample_keeps_waypoints leg_df (1 / 2)).
  - lra.
  - discriminate.
  - exact leg_df_increasing.
Defined.

(** A segment of positive duration [dt] is cut into
    [n = max(1, ceil(dt / step))] samples, the [k]-th at time
    [t0 + k * dt / n], and two neighbouring samples are never further
    apart than the step. *)
Theorem segment_samples_spacing (step : R) (w0 w1 : Row) :
  0 < step -> Time w0 < Time w1 ->
  let dt := Time w1 - Time w0 in
  let n := length (segment_samples step w0 w1) in
  Z.of_nat n = Z.max 1 (Zceil (dt / step)) /\
  dt / INR n <= step /\
  forall k s, nth_error (segment_samples step w0 w1) k = Some s ->
    wp_time s = Time w0 + INR k * (dt / INR n).
Proof.
  intros Hstep Hlt dt n.
  assert (Hdt : 0 < dt) by (unfold dt; lra).
  assert (Hseg : segment_samples step w0 w1
                 = map (fun k => sample_at w0 w1 dt
                                   (IZR k / IZR (Z.max 1 (Zceil (dt / step)))))
                       (py_range (Z.max 1 (Zceil (dt / step))))).
  { unfold segment_samples, total_seconds. fold dt.
    destruct (Rle_dec dt 0) as [H|_]; [lra|reflexivity]. }
  set (N := Z.max 1 (Zceil (dt / step))) in *.
  assert (Hn : Z.of_nat n = N).
  { unfold n. rewrite Hseg. unfold py_range.
    rewrite !length_map, length_seq. lia. }
  assert (HnR : INR n = IZR N) by (rewrite INR_IZR_INZ, Hn; reflexivity).
  assert (HN : 1 <= IZR N) by (apply IZR_le; lia).
  split; [exact Hn|]. split.
  - rewrite HnR.
    assert (Hc := Zceil_bound (dt / step)).
    assert (HcN : IZR (Zceil (dt / step)) <= IZR N) by (apply IZR_le; lia).
    assert (Hq : dt / step <= IZR N) by lra.
    assert (Hds : dt <= IZR N * step).
    { apply Rmult_le_compat_r with (r := step) in Hq; [|lra].
      unfold Rdiv in Hq. rewrite Rmult_assoc, Rinv_l, Rmult_1_r in Hq by lra.
      exact Hq. }
    apply Rmult_le_reg_r with (IZR N); [lra|].
    unfold Rdiv. rewrite Rmult_assoc, Rinv_l by lra. lra.
  - intros k s Hk. rewrite Hseg in Hk. unfold py_range in Hk.
    rewrite map_map in Hk.
    destruct (nth_error (seq 0 (Z.to_nat N)) k) as [i|] eqn:Ei.
    + rewrite (map_nth_error _ _ _ Ei) in Hk. injection Hk as <-.
      assert (Hik : i = k).
      { assert (Hl : (k < length (seq 0 (Z.to_nat N)))%nat)
          by (apply nth_error_Some; congruence).
        rewrite length_seq in Hl.
        rewrite nth_error_nth' with (d := 0%nat) in Ei
          by (rewrite length_seq; exact Hl).
        rewrite seq_nth in Ei by exact Hl. injection Ei as <-. reflexivity. }
      subst i. unfold sample_at, Timedelta_seconds, wp_time. cbv beta iota.
      rewrite HnR, INR_IZR_INZ. apply (f_equal (Rplus (Time w0))).
      field. lra.
    + exfalso. apply nth_error_None in Ei.
      assert (Hl : (k < length (map (fun x => sample_at w0 w1 dt (IZR (Z.of_nat x) / IZR N))
                                    (seq 0 (Z.to_nat N))))%nat)
        by (apply nth_error_Some; congruence).
      rewrite length_map in Hl. lia.
Qed.

Lemma segment_samples_spacing_witness :
  (1 - 0) / INR (length (segment_samples (1 / 2) (mkRow 1 0 0 0 0) (mkRow 1 1 1 1 1)))
  <= 1 / 2.
Proof.
  assert (Hs : 0 < 1 / 2) by lra.
  assert (Hlt : Time (mkRow 1 0 0 0 0) < Time (mkRow 1 1 1 1 1)) by (simpl; lra).
  exact (proj1 (proj2 (segment_samples_spacing (1 / 2) (mkRow 1 0 0 0 0)
                         (mkRow 1 1 1 1 1) Hs Hlt))).
Defined.


(** ** engine/spatial.py, engine/temporal.py: what the finders report *)

Lemma for_each_invariant {A S : Type} (I : S -> Prop)
  (body : S -> A -> result S) (l : list A) :
  (forall s x s', In x l -> I s -> body s x = Ok s' -> I s') ->
  forall s s', I s -> for_each body l s = Ok s' -> I s'.
Proof.
  induction l as [|x l IH]; intros Hbody s s' Hs Hrun.
  - simpl in Hrun. injection Hrun as <-. exact Hs.
  - simpl in Hrun. destruct (body s x) as [s1|e] eqn:E; [|discriminate].
    cbn [bind] in Hrun.
    apply (IH (fun s0 y s0' Hy => Hbody s0 y s0' (or_intror Hy)) s1 s');
      [|exact Hrun].
    apply (Hbody s x s1); [now left|exact Hs|exact E].
Qed.

Lemma insert_by_time_In (x r : Row) (l : list Row) :
  In x (insert_by_time r l) <-> x = r \/ In x l.
Proof.
  induction l as [|y l IH]; simpl.
  - intuition congruence.
  - destruct (Rle_dec (Time r) (Time y)); simpl; [intuition congruence|].
    rewrite IH. intuition congruence.
Qed.

Lemma sort_values_Time_In (x : Row) (df : DataFrame) :
  In x (sort_values_Time df) <-> In x df.
Proof.
  unfold sort_values_Time. induction df as [|r df IH]; simpl; [reflexivity|].
  rewrite insert_by_time_In, IH. intuition congruence.
Qed.

Lemma row_dict_id (k : Z) (r : Row) : DroneID r = k -> row_dict k r = r.
Proof. destruct r; simpl; intros <-; reflexivity. Qed.

Lemma sample_dict_DroneID (k : Z) (s : Waypoint) : DroneID (sample_dict k s) = k.
Proof. destruct s as [[[t lat] lon] alt]. reflexivity. Qed.

Lemma groupby_In (df : DataFrame) (k : Z) (group : DataFrame) :
  In (k, group) (groupby_DroneID df) ->
  group = rows_of k df /\ exists r, In r df /\ DroneID r = k.
Proof.
  unfold groupby_DroneID. rewrite in_map_iff.
  intros [k' [E Hk]]. injection E as -> <-.
  split; [reflexivity|]. now apply group_keys_In.
Qed.

(** The waypoints collected for the index belong to drones of the
    dataset other than the primary. *)
Lemma collect_groups_others (df : DataFrame) (pid : Z) (step : R) (ows : list Row) :
  for_each (collect_group pid step) (groupby_DroneID df) [] = Ok ows ->
  forall o, In o ows ->
    DroneID o <> pid /\ exists r, In r df /\ DroneID r = DroneID o.
Proof.
  apply (for_each_invariant
           (fun acc => forall o, In o acc ->
              DroneID o <> pid /\ exists r, In r df /\ DroneID r = DroneID o));
    [|intros o []].
  intros s [k group] s' Hin Hs Hbody o Ho.
  destruct (groupby_In _ _ _ Hin) as [-> Hk].
  unfold collect_group in Hbody.
  destruct (Z.eqb_spec k pid) as [->|Hne].
  - injection Hbody as <-. now apply Hs.
  - assert (Hnew : forall l, (forall x, In x l -> DroneID x = k) ->
                     In o (s ++ l) ->
                     DroneID o <> pid /\ exists r, In r df /\ DroneID r = DroneID o).
    { intros l Hl Hol. apply in_app_or in Hol. destruct Hol as [Hol|Hol].
      - now apply Hs.
      - rewrite (Hl o Hol). split; [exact Hne|exact Hk]. }
    destruct (Rlt_dec 0 step).
    + destruct (interpolate_trajectory (sort_values_Time (rows_of k df)) step)
        as [samples|e]; [|discriminate].
      cbn [bind] in Hbody. injection Hbody as <-.
      apply (Hnew (map (sample_dict k) samples)); [|exact Ho].
      intros x Hx. apply in_map_iff in Hx. destruct Hx as [smp [<- _]].
      apply sample_dict_DroneID.
    + injection Hbody as <-.
      apply (Hnew (map (row_dict k) (sort_values_Time (rows_of k df)))); [|exact Ho].
      intros x Hx. apply in_map_iff in Hx. destruct Hx as [row [<- _]].
      reflexivity.
Qed.

(** Without interpolation the waypoints collected for the index are
    rows of the dataset. *)
Lemma collect_groups_raw (df : DataFrame) (pid : Z) (step : R) (ows : list Row) :
  step <= 0 ->
  for_each (collect_group pid step) (groupby_DroneID df) [] = Ok ows ->
  forall o, In o ows -> In o df.
Proof.
  intros Hstep.
  apply (for_each_invariant (fun acc => forall o, In o acc -> In o df));
    [|intros o []].
  intros s [k group] s' Hin Hs Hbody o Ho.
  destruct (groupby_In _ _ _ Hin) as [-> _].
  unfold collect_group in Hbody.
  destruct (k =? pid)%Z; [injection Hbody as <-; now apply Hs|].
  destruct (Rlt_dec 0 step) as [H|_]; [lra|].
  injection Hbody as <-.
  apply in_app_or in Ho. destruct Ho as [Ho|Ho]; [now apply Hs|].
  apply in_map_iff in Ho. destruct Ho as [row [<- Hrow]].
  apply sort_values_Time_In, rows_of_In in Hrow. destruct Hrow as [Hrow Hid].
  now rewrite row_dict_id.
Qed.

Section EngineShape.

Variable geodesic_meters : R -> R -> R -> R -> result R.

(** The orchestrator in terms of its three intermediate values. *)
Lemma check_primary_mission_conflicts_shape (df : DataFrame) (pid : Z) (step : R) :
  exists pws ows,
    for_each (collect_group pid step) (groupby_DroneID df) [] = Ok ows /\
    (rows_of pid df <> [] ->
     (if Rlt_dec 0 step
      then interpolate_trajectory (sort_values_Time (rows_of pid df)) step
      else Ok (map row_tuple (sort_values_Time (rows_of pid df)))) = Ok pws) /\
    forall m tw,
      check_primary_mission_conflicts geodesic_meters df pid m tw step
      = Ok (if is_empty (rows_of pid df) then ([], [])
            else (spatial_records geodesic_meters pws ows m,
                  temporal_records geodesic_meters df pid tw m)).
Proof.
  destruct (collect_groups_ok df pid step) as [ows Hows].
  unfold check_primary_mission_conflicts. rewrite Hows. cbn [bind].
  destruct (rows_of pid df) as [|r rs] eqn:Ep.
  - exists [], ows. split; [reflexivity|]. split; [congruence|].
    intros m tw. reflexivity.
  - assert (Hne : sort_values_Time (r :: rs) <> [])
      by (apply sort_values_Time_nonempty; discriminate).
    assert (Hpws : exists pws,
               (if Rlt_dec 0 step
                then interpolate_trajectory (sort_values_Time (r :: rs)) step
                else Ok (map row_tuple (sort_values_Time (r :: rs)))) = Ok pws).
    { destruct (Rlt_dec 0 step); [|eexists; reflexivity].
      now apply interpolate_trajectory_nonempty. }
    destruct Hpws as [pws Hpws]. exists pws, ows.
    split; [reflexivity|]. split; [intros _; exact Hpws|].
    intros m tw. rewrite Hpws.
    destruct (sort_values_Time (r :: rs)) as [|x xs]; [congruence|].
    cbn [is_empty bind].
    rewrite spatial_check_with_index_ok. cbn [bind].
    rewrite temporal_check_df_ok. reflexivity.
Qed.

Lemma spatial_records_In (pws : list Waypoint) (ows : list Row) (m : R)
  (p : Waypoint) (o : Row) (d : R) :
  In (p, o, d) (spatial_records geodesic_meters pws ows m) <->
  In p pws /\ In o ows /\
  euclidean
    (project (cos (math_radians (np_mean (map Latitude ows))))
             (Latitude o) (Longitude o))
    (project (cos (math_radians (np_mean (map Latitude ows))))
             (wp_lat p) (wp_lon p)) <= m /\
  Rabs (wp_time p - Time o) <= 1 / 10 /\
  d = dist_3d geodesic_meters (wp_lat p) (wp_lon p) (wp_alt p) o /\
  d < m.
Proof.
  unfold spatial_records. rewrite in_flat_map. split.
  - intros [p0 [Hp H]]. apply in_flat_map in H. destruct H as [o0 [Ho H]].
    unfold spatial_emit in H.
    destruct (Rle_dec _ m) as [Hball|]; [|destruct H].
    destruct (Rlt_dec TIME_TOLERANCE_SEC _) as [|Hnear]; [destruct H|].
    apply verified_In in H. destruct H as [-> [-> [Hd Hlt]]].
    unfold TIME_TOLERANCE_SEC, total_seconds in Hnear.
    repeat split; try assumption. lra.
  - intros [Hp [Ho [Hball [Hnear [Hd Hlt]]]]].
    exists p. split; [exact Hp|]. apply in_flat_map. exists o.
    split; [exact Ho|]. unfold spatial_emit.
    destruct (Rle_dec _ m) as [_|Hn]; [|contradiction].
    destruct (Rlt_dec TIME_TOLERANCE_SEC _) as [Hfar|_].
    + unfold TIME_TOLERANCE_SEC, total_seconds in Hfar. lra.
    + apply verified_In. repeat split; assumption.
Qed.

Lemma temporal_records_In (df : DataFrame) (pid : Z) (tw m : R)
  (p : Waypoint) (o : Row) (d : R) :
  In (p, o, d) (temporal_records geodesic_meters df pid tw m) <->
  exists prow,
    In prow df /\ DroneID prow = pid /\ p = row_tuple prow /\
    In o df /\ DroneID o <> pid /\
    Time prow - tw <= Time o <= Time prow + tw /\
    d = dist_3d geodesic_meters (Latitude prow) (Longitude prow) (Altitude prow) o /\
    d < m.
Proof.
  unfold temporal_records. rewrite in_flat_map. split.
  - intros [prow [Hp H]]. apply in_flat_map in H. destruct H as [o0 [Ho H]].
    apply filter_In in Ho. destruct Ho as [Ho Hw].
    apply verified_In in H. destruct H as [-> [-> [Hd Hlt]]].
    apply rows_of_In in Hp. apply rows_not_of_In in Ho.
    apply in_window_spec in Hw.
    exists prow. repeat split; try tauto.
  - intros [prow [Hin [Hid [-> [Hino [Hido [Hw [Hd Hlt]]]]]]]].
    exists prow. split; [apply rows_of_In; now split|].
    apply in_flat_map. exists o. split.
    + apply filter_In. split; [apply rows_not_of_In; now split|].
      now apply in_window_spec.
    + apply verified_In. repeat split; assumption.
Qed.

End EngineShape.

Lemma no_member_nil {A : Type} (l : list A) : (forall x, ~ In x l) -> l = [].
Proof.
  destruct l as [|a l]; [reflexivity|].
  intros H. exfalso. apply (H a). now left.
Qed.

Lemma flat_map_filter_length_le {A B : Type} (f : A -> list B)
  (p1 p2 : A -> bool) (l : list A) :
  (forall x, p1 x = true -> p2 x = true) ->
  (length (flat_map f (filter p1 l)) <= length (flat_map f (filter p2 l)))%nat.
Proof.
  intros Himp. induction l as [|x l IH]; [simpl; lia|].
  simpl. destruct (p1 x) eqn:E1.
  - rewrite (Himp x E1). simpl. rewrite !length_app. lia.
  - destruct (p2 x); simpl; [rewrite length_app|]; lia.
Qed.

Lemma Rabs_le_both (x y : R) : Rabs x <= y -> - y <= x <= y.
Proof. unfold Rabs. destruct (Rcase_abs x); lra. Qed.

Section EngineExtras.

Variable geodesic_meters : R -> R -> R -> R -> result R.



(** The spatial finder treats the primary waypoints one by one and in
    order: the records for a concatenated primary list are the records
    for its first part followed by those for its second part. *)
Theorem spatial_check_with_index_app (pws1 pws2 : list Waypoint)
  (ows : list Row) (m : R) :
  spatial_check_with_index geodesic_meters (pws1 ++ pws2) ows m
  = (v1 <- spatial_check_with_index geodesic_meters pws1 ows m ;;
     v2 <- spatial_check_with_index geodesic_meters pws2 ows m ;;
     Ok (v1 ++ v2)).
Proof.
  rewrite !spatial_check_with_index_ok. cbn [bind].
  unfold spatial_records. now rewrite flat_map_app.
Qed.

(** With a threshold that is not positive nothing is ever a conflict:
    both finders return the empty list and the engine returns two empty
    lists. *)
Theorem nonpositive_threshold_no_conflicts (df : DataFrame) (pid : Z)
  (m tw step : R) :
  m <= 0 ->
  (forall pws ows, spatial_check_with_index geodesic_meters pws ows m = Ok []) /\
  temporal_check_df geodesic_meters df pid tw m = Ok [] /\
  check_primary_mission_conflicts geodesic_meters df pid m tw step = Ok ([], []).
Proof.
  intros Hm.
  assert (Hsp : forall pws ows, spatial_records geodesic_meters pws ows m = []).
  { intros pws ows. apply no_member_nil. intros [[p o] d] Hin.
    apply spatial_records_In in Hin.
    destruct Hin as [_ [_ [_ [_ [Hd Hlt]]]]].
    assert (H0 := dist_3d_nonneg geodesic_meters (wp_lat p) (wp_lon p) (wp_alt p) o).
    lra. }
  assert (Hte : temporal_records geodesic_meters df pid tw m = []).
  { apply no_member_nil. intros [[p o] d] Hin.
    apply temporal_records_In in Hin.
    destruct Hin as [prow [_ [_ [_ [_ [_ [_ [Hd Hlt]]]]]]]].
    assert (H0 := dist_3d_nonneg geodesic_meters (Latitude prow) (Longitude prow)
                    (Altitude prow) o).
    lra. }
  split; [|split].
  - intros pws ows. now rewrite spatial_check_with_index_ok, Hsp.
  - now rewrite temporal_check_df_ok, Hte.
  - destruct (check_primary_mission_conflicts_ok geodesic_meters df pid step)
      as [pws [ows Hok]].
    rewrite Hok, Hsp, Hte. destruct (is_empty (rows_of pid df)); reflexivity.
Qed.

(** Widening the time window never removes a temporal conflict: every
    record found with the smaller window is found with the larger one,
    and the count does not decrease. *)
Theorem temporal_window_monotone (df : DataFrame) (pid : Z) (tw1 tw2 m : R) :
  tw1 <= tw2 ->
  exists v1 v2,
    temporal_check_df geodesic_meters df pid tw1 m = Ok v1 /\
    temporal_check_df geodesic_meters df pid tw2 m = Ok v2 /\
    (forall c, In c v1 -> In c v2) /\
    (length v1 <= length v2)%nat.
Proof.
  intros Htw. do 2 eexists.
  split; [apply temporal_check_df_ok|]. split; [apply temporal_check_df_ok|].
  split.
  - intros [[p o] d] Hin. apply temporal_records_In in Hin.
    apply temporal_records_In.
    destruct Hin as [prow [H1 [H2 [H3 [H4 [H5 [H6 H7]]]]]]].
    exists prow. repeat split; try tauto; lra.
  - unfold temporal_records. apply flat_map_length_le. intros prow.
    apply flat_map_filter_length_le. intros o Ho.
    apply in_window_spec in Ho. apply in_window_spec. lra.
Qed.


(** A dataset that holds only the primary drone has no conflicts: the
    engine returns two empty lists, whatever the thresholds. *)
Theorem only_primary_no_conflicts (df : DataFrame) (pid : Z) (m tw step : R) :
  (forall r, In r df -> DroneID r = pid) ->
  check_primary_mission_conflicts geodesic_meters df pid m tw step = Ok ([], []).
Proof.
  intros Hall.
  destruct (check_primary_mission_conflicts_shape geodesic_meters df pid step)
    as [pws [ows [Hows [_ Hok]]]].
  rewrite Hok.
  assert (Hnil : ows = []).
  { apply no_member_nil. intros o Ho.
    destruct (collect_groups_others df pid step ows Hows o Ho)
      as [Hne [r [Hr Hid]]].
    apply Hne. rewrite <- Hid. now apply Hall. }
  assert (Hte : temporal_records geodesic_meters df pid tw m = []).
  { apply no_member_nil. intros [[p o] d] Hin.
    apply temporal_records_In in Hin.
    destruct Hin as [prow [_ [_ [_ [Ho [Hne _]]]]]].
    apply Hne. now apply Hall. }
  rewrite Hte, Hnil.
  assert (Hsp : spatial_records geodesic_meters pws [] m = []).
  { unfold spatial_records. now apply flat_map_nil. }
  rewrite Hsp. destruct (is_empty (rows_of pid df)); reflexivity.
Qed.


(** With interpolation switched off and a time window of at least 0.1 s,
    the spatial pass finds nothing the temporal pass does not: every
    spatial record is also a temporal record. *)
Theorem raw_spatial_within_temporal (df : DataFrame) (pid : Z) (m tw step : R) :
  step <= 0 -> 1 / 10 <= tw ->
  exists sp te,
    check_primary_mission_conflicts geodesic_meters df pid m tw step
    = Ok (sp, te) /\
    forall c, In c sp -> In c te.
Proof.
  intros Hstep Htw.
  destruct (check_primary_mission_conflicts_shape geodesic_meters df pid step)
    as [pws [ows [Hows [Hpws Hok]]]].
  destruct (rows_of pid df) as [|r rs] eqn:Ep.
  - exists [], []. split; [rewrite Hok; reflexivity|]. intros c [].
  - exists (spatial_records geodesic_meters pws ows m),
           (temporal_records geodesic_meters df pid tw m).
    split; [rewrite Hok; reflexivity|].
    intros [[p o] d] Hin.
    apply spatial_records_In in Hin.
    destruct Hin as [Hp [Ho [_ [Hnear [Hd Hlt]]]]].
    assert (Hraw : pws = map row_tuple (sort_values_Time (r :: rs))).
    { specialize (Hpws ltac:(discriminate)).
      destruct (Rlt_dec 0 step) as [H|_]; [lra|].
      injection Hpws as <-. reflexivity. }
    rewrite Hraw in Hp. apply in_map_iff in Hp. destruct Hp as [prow [<- Hprow]].
    apply (proj1 (sort_values_Time_In _ _)) in Hprow. rewrite <- Ep in Hprow.
    apply (proj1 (rows_of_In _ _ _)) in Hprow. destruct Hprow as [Hprow Hid].
    destruct (collect_groups_others df pid step ows Hows o Ho) as [Hne _].
    assert (Hodf := collect_groups_raw df pid step ows Hstep Hows o Ho).
    apply temporal_records_In. exists prow.
    unfold row_tuple, wp_time, wp_lat, wp_lon, wp_alt in *.
    apply Rabs_le_both in Hnear.
    repeat split; try assumption; lra.
Qed.

End EngineExtras.

Lemma nonpositive_threshold_no_conflicts_witness :
  check_primary_mission_conflicts geodesic_meridian simple_df 1 0 1 (1 / 2)
  = Ok ([], []).
Proof.
  apply (nonpositive_threshold_no_conflicts geodesic_meridian simple_df 1 0 1 (1 / 2)).
  lra.
Defined.

Lemma temporal_window_monotone_witness :
  exists v1 v2,
    temporal_check_df geodesic_meridian simple_df 1 1 10 = Ok v1 /\
    temporal_check_df geodesic_meridian simple_df 1 15 10 = Ok v2 /\
    (forall c, In c v1 -> In c v2) /\
    (length v1 <= length v2)%nat.
Proof.
  apply (temporal_window_monotone geodesic_meridian simple_df 1 1 15 10). lra.
Defined.


Lemma leg_df_only_primary (r : Row) : In r leg_df -> DroneID r = 1%Z.
Proof. unfold leg_df. intros [<-|[<-|[]]]; reflexivity. Qed.

Lemma only_primary_no_conflicts_witness :
  check_primary_mission_conflicts geodesic_meridian leg_df 1 10 1 (1 / 2)
  = Ok ([], []).
Proof.
  apply (only_primary_no_conflicts geodesic_meridian leg_df 1 10 1 (1 / 2)).
  exact leg_df_only_primary.
Defined.

Lemma raw_spatial_within_temporal_witness :
  exists sp te,
    check_primary_mission_conflicts geodesic_meridian simple_df 1 10 1 0
    = Ok (sp, te) /\
    forall c, In c sp -> In c te.
Proof.
  apply (raw_spatial_within_temporal geodesic_meridian simple_df 1 10 1 0); lra.
Defined.

(** ** engine/spatial.py: the radius query against the exact check *)

Lemma PI_upper : PI < 31422 / 10000.
Proof.
  assert (H := PI_2_3_7_ineq 1). destruct H as [_ H].
  unfold sum_f_R0, tg_alt, PI_2_3_7_tg, Ratan_seq in H.
  simpl in H. lra.
Qed.

Lemma euclidean_same_longitude (cos_ref lat1 lat2 lon : R) :
  euclidean (project cos_ref lat2 lon) (project cos_ref lat1 lon)
  = meters_per_degree * Rabs (lat2 - lat1).
Proof.
  unfold euclidean, project. cbn [fst snd].
  assert (Hm : 0 <= meters_per_degree) by (unfold meters_per_degree; lra).
  assert (Ha := Rabs_pos (lat2 - lat1)).
  replace ((lon * meters_per_degree * cos_ref - lon * meters_per_degree * cos_ref) ^ 2
           + (lat2 * meters_per_degree - lat1 * meters_per_degree) ^ 2)
    with ((meters_per_degree * Rabs (lat2 - lat1)) ^ 2).
  - apply sqrt_pow2. now apply Rmult_le_pos.
  - rewrite Rpow_mult_distr, pow2_abs. ring.
Qed.

Section PrefilterProperties.

Variable geodesic_meters : R -> R -> R -> R -> result R.

Lemma dist_3d_meridian_fallback (lat1 lat2 lon alt t : R) (k : Z) (e : exn) :
  geodesic_meters lat1 lon lat2 lon = Raise e ->
  Rabs (lat2 - lat1) <= 180 ->
  dist_3d geodesic_meters lat1 lon alt (mkRow k t lat2 lon alt)
  = 6371000 * math_radians (Rabs (lat2 - lat1)).
Proof.
  intros Hg Hd. unfold dist_3d, horizontal, safe_geodesic_meters.
  cbn [Latitude Longitude Altitude]. rewrite Hg.
  rewrite haversine_meters_value, (haversine_meridian_arc lat1 lat2 lon Hd).
  replace (2 * 6371000 * (math_radians (Rabs (lat2 - lat1)) / 2))
    with (6371000 * math_radians (Rabs (lat2 - lat1))) by field.
  replace (alt - alt) with 0 by ring. rewrite Rabs_R0.
  replace ((6371000 * math_radians (Rabs (lat2 - lat1))) ^ 2 + 0 ^ 2)
    with ((6371000 * math_radians (Rabs (lat2 - lat1))) ^ 2) by ring.
  apply sqrt_pow2.
  assert (Hpi := PI_RGT_0). assert (Ha := Rabs_pos (lat2 - lat1)).
  unfold math_radians. nra.
Qed.

(** The radius query is not a superset of the exact check.  When geopy
    fails and the haversine fallback measures two simultaneous waypoints
    of one meridian at the same altitude, the planar projection counts
    111320 m per degree where the fallback counts about 111195 m: for a
    threshold between the two distances the spatial finder reports
    nothing, while the temporal finder reports the pair. *)
Theorem spatial_prefilter_drops_close_pair (pid k : Z)
  (t lat1 lat2 lon alt m tw : R) (e : exn) :
  geodesic_meters lat1 lon lat2 lon = Raise e ->
  k <> pid -> 0 <= tw ->
  Rabs (lat2 - lat1) <= 180 ->
  6371000 * math_radians (Rabs (lat2 - lat1)) < m ->
  m < meters_per_degree * Rabs (lat2 - lat1) ->
  let prow := mkRow pid t lat1 lon alt in
  let o := mkRow k t lat2 lon alt in
  spatial_check_with_index geodesic_meters [row_tuple prow] [o] m = Ok [] /\
  temporal_check_df geodesic_meters [prow; o] pid tw m
  = Ok [(row_tuple prow, o, 6371000 * math_radians (Rabs (lat2 - lat1)))].
Proof.
  intros Hg Hk Htw Hd Hlo Hhi prow o.
  assert (Hdist := dist_3d_meridian_fallback lat1 lat2 lon alt t k e Hg Hd).
  split.
  - rewrite spatial_check_with_index_ok. f_equal.
    unfold spatial_records, spatial_emit, prow, o, row_tuple, wp_lat, wp_lon.
    cbn [flat_map Latitude Longitude app].
    rewrite euclidean_same_longitude.
    destruct (Rle_dec _ m) as [H|_]; [lra|reflexivity].
  - rewrite temporal_check_df_ok. f_equal.
    unfold temporal_records, rows_of, rows_not_of, prow, o.
    cbn [filter DroneID].
    rewrite Z.eqb_refl. apply Z.eqb_neq in Hk. rewrite Hk.
    cbn [negb filter flat_map app Time].
    assert (Hw : in_window (Timedelta_seconds tw) t (mkRow k t lat2 lon alt) = true).
    { apply in_window_spec. cbn [Time]. lra. }
    rewrite Hw. cbn [flat_map app].
    unfold verified, row_tuple, wp_lat, wp_lon, wp_alt.
    cbn [Latitude Longitude Altitude Time].
    rewrite Hdist.
    destruct (Rlt_dec _ m) as [_|H]; [reflexivity|contradiction].
Qed.

End PrefilterProperties.

(** geopy failing on every call, as when its model is unavailable. *)
Lemma spatial_prefilter_drops_close_pair_witness :
  spatial_check_with_index (fun _ _ _ _ => Raise OtherError)
    [row_tuple (mkRow 1 0 0 0 100)] [mkRow 2 0 1 0 100] 111250 = Ok [] /\
  temporal_check_df (fun _ _ _ _ => Raise OtherError)
    [mkRow 1 0 0 0 100; mkRow 2 0 1 0 100] 1 1 111250
  = Ok [(row_tuple (mkRow 1 0 0 0 100), mkRow 2 0 1 0 100,
         6371000 * math_radians (Rabs (1 - 0)))].
Proof.
  assert (Hpi := PI_upper). assert (Hpi0 := PI_RGT_0).
  assert (Habs : Rabs (1 - 0) = 1) by (rewrite Rabs_pos_eq; lra).
  apply (spatial_prefilter_drops_close_pair (fun _ _ _ _ => Raise OtherError)
           1 2 0 0 1 0 100 111250 1 OtherError).
  - reflexivity.
  - discriminate.
  - lra.
  - rewrite Habs. lra.
  - rewrite Habs. unfold math_radians. lra.
  - rewrite Habs. unfold meters_per_degree. lra.
Defined.

(** [build_spatial_index] returns no tree exactly when it is given no
    waypoint, then with no points and the reference latitude 0;
    otherwise the tree holds one projected point per waypoint and the
    reference latitude is the mean latitude, so the branch for an empty
    point array after the projection is never taken. *)
Theorem build_spatial_index_tree (ows : list Row) :
  let '(tree, points, lat_ref) := build_spatial_index ows in
  (tree = None <-> ows = []) /\
  match tree with
  | Some tr =>
      points = Some (tree_data tr) /\
      length (tree_data tr) = length ows /\
      lat_ref = np_mean (map Latitude ows)
  | None => points = None /\ lat_ref = 0
  end.
Proof.
  unfold build_spatial_index. destruct ows as [|o ows].
  - cbn [is_empty]. split; [split; reflexivity|split; reflexivity].
  - cbn [is_empty]. set (l := o :: ows).
    set (pts := map _ l).
    assert (Hlen : length pts = length l) by (unfold pts; apply length_map).
    assert (Hz : (2 * length pts =? 0)%nat = false).
    { apply Nat.eqb_neq. rewrite Hlen. unfold l. simpl. lia. }
    rewrite Hz. cbn [tree_data]. split.
    + split; [discriminate|unfold l; discriminate].
    + split; [reflexivity|]. split; [exact Hlen|reflexivity].
Qed.
